(** * Verification of [scripts/clean_data.py]

    A shallow embedding of the sales-data cleaner and the properties its
    specification states about it.

    Modelling conventions.
    - A pandas [float64] cell is a binary64 float ([PrimFloat.float]); the
      missing marker of such a column is NaN, tested by [isna]
      ([PrimFloat.is_nan]).
    - A text cell of an [object] column is [option string]: [None] is the
      NaN marker that [read_csv] puts in empty cells, so [str(cell)] is the
      cell itself.  Text is ASCII: the character classes below are Python's
      on code points 0..127, and bytes above 127 are carried through
      unchanged.
    - A [datetime64] cell is [option Timestamp], [None] being [NaT].
    - A DataFrame is the list of its rows, each paired with its index label;
      [drop_duplicates] and [dropna] keep the labels of the rows they keep.
    - Column assignments act on each cell independently, so steps 1 to 4 are
      written row by row.
    - The parsers inside [pandas.to_numeric], [pandas.to_datetime] (taken
      cell by cell) and [pandas.read_csv], and the writer
      [DataFrame.to_csv], are library code: they are parameters of the
      development, and [Sample] holds small stand-ins on which the script
      is run.
    - [value_counts] lists the identifiers in order of first occurrence;
      pandas sorts them by count, which only changes the order of a printed
      report. *)

From Stdlib Require Import ZArith Bool List Ascii String Lia Uint63 Floats.
From stdpp Require Import base option gmap strings.
Import ListNotations.

Local Open Scope string_scope.
Local Open Scope bool_scope.

(** * Python string primitives on ASCII text *)

Module PyStr.

(** [str.isspace] on one ASCII character, which is also what [\s] matches in
    a [str] pattern: TAB, LF, VT, FF, CR, the separators 0x1c..0x1f, and the
    space. *)
Definition is_space (c : ascii) : bool :=
  let n := nat_of_ascii c in
  ((9 <=? n)%nat && (n <=? 13)%nat) || ((28 <=? n)%nat && (n <=? 32)%nat).

Definition is_upper (c : ascii) : bool :=
  let n := nat_of_ascii c in (65 <=? n)%nat && (n <=? 90)%nat.

Definition is_lower (c : ascii) : bool :=
  let n := nat_of_ascii c in (97 <=? n)%nat && (n <=? 122)%nat.

(** A cased character is one with an upper, lower or title case form. *)
Definition is_cased (c : ascii) : bool := is_upper c || is_lower c.

Definition to_upper (c : ascii) : ascii :=
  if is_lower c then ascii_of_nat (nat_of_ascii c - 32) else c.

Definition to_lower (c : ascii) : ascii :=
  if is_upper c then ascii_of_nat (nat_of_ascii c + 32) else c.

(** [s.lstrip()] *)
Fixpoint lstrip (s : string) : string :=
  match s with
  | EmptyString => EmptyString
  | String c s' => if is_space c then lstrip s' else s
  end.

(** [s.rstrip()] *)
Fixpoint rstrip (s : string) : string :=
  match s with
  | EmptyString => EmptyString
  | String c s' =>
      match rstrip s' with
      | EmptyString => if is_space c then EmptyString else String c EmptyString
      | t => String c t
      end
  end.

(** [s.strip()] *)
Definition strip (s : string) : string := rstrip (lstrip s).

(** [re.sub(r"\s+", " ", s)]: every maximal run of whitespace is replaced by
    one space.  [in_run] records that the previous character belonged to a
    run whose replacement has been emitted. *)
Fixpoint sub_ws (in_run : bool) (s : string) : string :=
  match s with
  | EmptyString => EmptyString
  | String c s' =>
      if is_space c
      then if in_run then sub_ws true s' else String " " (sub_ws true s')
      else String c (sub_ws false s')
  end.

Definition collapse_spaces (s : string) : string := sub_ws false s.

(** The character [s.title()] writes for [c]: lower case when the character
    before it is cased, title case (upper case, on ASCII) otherwise. *)
Definition recase (previous_is_cased : bool) (c : ascii) : ascii :=
  if previous_is_cased then to_lower c else to_upper c.

(** [s.title()] *)
Fixpoint title_from (previous_is_cased : bool) (s : string) : string :=
  match s with
  | EmptyString => EmptyString
  | String c s' => String (recase previous_is_cased c) (title_from (is_cased c) s')
  end.

Definition title (s : string) : string := title_from false s.

End PyStr.

(** * The text normalisers of the script *)

(** A text cell: [None] is the NaN of an empty CSV cell ([pd.isna]). *)
Definition text_cell := option string.

Definition standardize_city (city : text_cell) : text_cell :=
  match city with
  | None => None
  | Some v =>
      let s := PyStr.strip v in
      let s := PyStr.collapse_spaces s in
      Some (PyStr.title s)
  end.

Definition standardize_name (name : text_cell) : text_cell :=
  match name with
  | None => None
  | Some v =>
      let s := PyStr.strip v in
      let s := PyStr.collapse_spaces s in
      Some (PyStr.title s)
  end.

Definition standardize_product (product : text_cell) : text_cell :=
  match product with
  | None => None
  | Some v =>
      let s := PyStr.strip v in
      let s := PyStr.collapse_spaces s in
      Some (PyStr.title s)
  end.

(** * Cells, exceptions and rows *)

(** A [pandas.Timestamp]: a calendar date and the nanoseconds elapsed in
    that day. *)
Record Timestamp := mkTimestamp
  { ts_year : Z; ts_month : Z; ts_day : Z; ts_nanos : Z }.

(** An [order_id] cell: [read_csv] infers integers or keeps the text. *)
Inductive ident :=
  | IdInt (z : Z)
  | IdText (s : string)
  | IdNaN.

(** A cell of the raw [price] or [quantity] column: text that [read_csv]
    left unparsed, or a float ([RawNum nan] is the empty cell). *)
Inductive raw_number :=
  | RawNumText (s : string)
  | RawNum (x : float).

(** A cell of the raw [order_date] column. *)
Inductive raw_date :=
  | RawDateText (s : string)
  | RawDateNaN
  | RawDateStamp (t : Timestamp).

Inductive exn :=
  | FileNotFoundError (msg : string)
  | FileExistsError
  | NotADirectoryError
  | IsADirectoryError
  | ParserError
  | KeyError
  | ValueError (msg : string).

(** The outcome of a call that may raise. *)
Inductive result (A : Type) :=
  | Ok (a : A)
  | Raise (e : exn).
Arguments Ok {A} a.
Arguments Raise {A} e.

Definition bind {A B : Type} (m : result A) (k : A -> result B) : result B :=
  match m with
  | Ok a => k a
  | Raise e => Raise e
  end.

Notation "'let*' x ':=' m 'in' k" := (bind m (fun x => k))
  (at level 10, x name, m at level 100, k at level 200).

(** The [errors] argument of [to_numeric] and [to_datetime]. *)
Inductive errors_mode := ErrorsRaise | ErrorsCoerce.

(** The input columns, as [read_csv] delivers them. *)
Record RawRow := mkRawRow
  { raw_order_id : ident;
    raw_customer_name : text_cell;
    raw_city : text_cell;
    raw_product : text_cell;
    raw_price : raw_number;
    raw_quantity : raw_number;
    raw_order_date : raw_date }.

(** The frame between step 4 and step 7: coerced columns and the flag. *)
Record Row := mkRow
  { df_order_id : ident;
    df_customer_name : text_cell;
    df_city : text_cell;
    df_product : text_cell;
    df_price : float;
    df_quantity : float;
    df_order_date : option Timestamp;
    df_quantity_was_missing : bool }.

(** The exported frame, in the order of [ordered_cols]. *)
Record CleanRow := mkCleanRow
  { order_id : ident;
    customer_name : text_cell;
    city : text_cell;
    product : text_cell;
    price : float;
    quantity : float;
    order_date : option Timestamp;
    revenue : float;
    quantity_was_missing : bool }.

(** A DataFrame: rows with their index labels. *)
Definition frame (A : Type) := list (nat * A).

(** [read_csv] labels the rows 0, 1, 2, ... *)
Definition range_index {A : Type} (rows : list A) : frame A :=
  combine (seq 0 (length rows)) rows.

(** * Missing values and equality of cells *)

(** [pd.isna] / [Series.isna] on a float cell. *)
Definition isna (x : float) : bool := PrimFloat.is_nan x.

(** [Series.isna] on a datetime cell. *)
Definition isnat (d : option Timestamp) : bool :=
  match d with None => true | Some _ => false end.

(** [Series.fillna(value)] on a float cell. *)
Definition fillna (x value : float) : float := if isna x then value else x.

(** Equality of two float cells as pandas hashes them: IEEE equality, and
    NaN equal to NaN. *)
Definition same_float (a b : float) : bool :=
  PrimFloat.eqb a b || (isna a && isna b).

Definition same_text (a b : text_cell) : bool :=
  match a, b with
  | None, None => true
  | Some s, Some t => String.eqb s t
  | _, _ => false
  end.

Definition same_ident (a b : ident) : bool :=
  match a, b with
  | IdInt x, IdInt y => Z.eqb x y
  | IdText s, IdText t => String.eqb s t
  | IdNaN, IdNaN => true
  | _, _ => false
  end.

Definition same_timestamp (a b : Timestamp) : bool :=
  Z.eqb (ts_year a) (ts_year b) && Z.eqb (ts_month a) (ts_month b)
  && Z.eqb (ts_day a) (ts_day b) && Z.eqb (ts_nanos a) (ts_nanos b).

Definition same_date (a b : option Timestamp) : bool :=
  match a, b with
  | None, None => true
  | Some s, Some t => same_timestamp s t
  | _, _ => false
  end.

(** Two rows are duplicates when they agree on every column of the frame. *)
Definition same_row (a b : Row) : bool :=
  same_ident (df_order_id a) (df_order_id b)
  && same_text (df_customer_name a) (df_customer_name b)
  && same_text (df_city a) (df_city b)
  && same_text (df_product a) (df_product b)
  && same_float (df_price a) (df_price b)
  && same_float (df_quantity a) (df_quantity b)
  && same_date (df_order_date a) (df_order_date b)
  && Bool.eqb (df_quantity_was_missing a) (df_quantity_was_missing b).

(** The same comparison on the exported columns. *)
Definition same_clean_row (a b : CleanRow) : bool :=
  same_ident (order_id a) (order_id b)
  && same_text (customer_name a) (customer_name b)
  && same_text (city a) (city b)
  && same_text (product a) (product b)
  && same_float (price a) (price b)
  && same_float (quantity a) (quantity b)
  && same_date (order_date a) (order_date b)
  && same_float (revenue a) (revenue b)
  && Bool.eqb (quantity_was_missing a) (quantity_was_missing b).

(** * Frame operations *)

(** [df.drop_duplicates()] with the default [keep="first"]: a row is dropped
    when a row before it in the frame is the same. *)
Fixpoint drop_duplicates_from (seen : list Row) (df : frame Row) : frame Row :=
  match df with
  | [] => []
  | (i, r) :: rest =>
      if existsb (fun s => same_row s r) seen
      then drop_duplicates_from (r :: seen) rest
      else (i, r) :: drop_duplicates_from (r :: seen) rest
  end.

Definition drop_duplicates (df : frame Row) : frame Row :=
  drop_duplicates_from [] df.

(** The row test of [df.dropna(subset=["price", "quantity", "order_date"])]. *)
Definition usable (r : Row) : bool :=
  negb (isna (df_price r)) && negb (isna (df_quantity r))
  && negb (isnat (df_order_date r)).

Definition dropna (df : frame Row) : frame Row :=
  List.filter (fun ir => usable (snd ir)) df.

(** Steps 8 and 9: [df["revenue"] = df["price"] * df["quantity"]] and the
    selection [df[ordered_cols]]. *)
Definition with_revenue (r : Row) : CleanRow :=
  {| order_id := df_order_id r;
     customer_name := df_customer_name r;
     city := df_city r;
     product := df_product r;
     price := df_price r;
     quantity := df_quantity r;
     order_date := df_order_date r;
     revenue := PrimFloat.mul (df_price r) (df_quantity r);
     quantity_was_missing := df_quantity_was_missing r |}.

Definition add_revenue (df : frame Row) : frame CleanRow :=
  List.map (fun ir => (fst ir, with_revenue (snd ir))) df.

(** [df["order_id"].value_counts()]: how often each identifier occurs, NaN
    left out, in order of first occurrence. *)
Fixpoint count_ident (x : ident) (l : list ident) : nat :=
  match l with
  | [] => 0
  | y :: l' => (if same_ident x y then 1 else 0) + count_ident x l'
  end.

Fixpoint value_counts_from (seen : list ident) (l : list ident) : list (ident * nat) :=
  match l with
  | [] => []
  | x :: l' =>
      match x with
      | IdNaN => value_counts_from seen l'
      | _ =>
          if existsb (same_ident x) seen
          then value_counts_from seen l'
          else (x, S (count_ident x l')) :: value_counts_from (x :: seen) l'
      end
  end.

Definition value_counts (l : list ident) : list (ident * nat) :=
  value_counts_from [] l.

(** ** Canonical keys of cells

    [same_float] is equality of the keys below: the two zeros share a key,
    and so do all NaNs. *)
Definition sf_key (f : spec_float) : option spec_float :=
  match f with
  | S754_nan => None
  | S754_zero _ => Some (S754_zero false)
  | _ => Some f
  end.

Definition float_key (x : float) : option spec_float := sf_key (Prim2SF x).

Definition row_key (r : Row) :=
  (df_order_id r, df_customer_name r, df_city r, df_product r,
   float_key (df_price r), float_key (df_quantity r), df_order_date r,
   df_quantity_was_missing r).

(** A row with its flag column set to [False]. *)
Definition clear_flag (r : Row) : Row :=
  {| df_order_id := df_order_id r;
     df_customer_name := df_customer_name r;
     df_city := df_city r;
     df_product := df_product r;
     df_price := df_price r;
     df_quantity := df_quantity r;
     df_order_date := df_order_date r;
     df_quantity_was_missing := false |}.

Definition clear_flags (df : frame Row) : frame Row :=
  List.map (fun ir => (fst ir, clear_flag (snd ir))) df.

Definition clear_flag_clean (r : CleanRow) : CleanRow :=
  {| order_id := order_id r;
     customer_name := customer_name r;
     city := city r;
     product := product r;
     price := price r;
     quantity := quantity r;
     order_date := order_date r;
     revenue := revenue r;
     quantity_was_missing := false |}.

(** * The normaliser as the specification words it

    Title-casing by whitespace-delimited words: the first character of each
    word is upper-cased and the others are lower-cased. *)
Fixpoint capitalize_words_from (at_word_start : bool) (s : string) : string :=
  match s with
  | EmptyString => EmptyString
  | String c s' =>
      String (if at_word_start then PyStr.to_upper c else PyStr.to_lower c)
             (capitalize_words_from (PyStr.is_space c) s')
  end.

Definition spec_normalize (v : text_cell) : text_cell :=
  match v with
  | None => None
  | Some s =>
      Some (capitalize_words_from true (PyStr.collapse_spaces (PyStr.strip s)))
  end.

(** Text in which a letter never comes directly after a character that is
    neither a letter nor whitespace. *)
Fixpoint plain_words_from (previous_breaks : bool) (s : string) : bool :=
  match s with
  | EmptyString => true
  | String c s' =>
      negb (previous_breaks && PyStr.is_cased c)
      && plain_words_from (negb (PyStr.is_cased c) && negb (PyStr.is_space c)) s'
  end.

Definition plain_words (s : string) : bool := plain_words_from false s.

(** The last character of [s], or the flag when [s] is empty, is no
    whitespace. *)
Fixpoint ends_clean (previous_is_space : bool) (s : string) : bool :=
  match s with
  | EmptyString => negb previous_is_space
  | String c s' => ends_clean (PyStr.is_space c) s'
  end.

(** What the result of normalisation looks like: no whitespace at either
    end, and no whitespace inside but single spaces. *)
Fixpoint single_spaced_from (previous_is_space : bool) (s : string) : bool :=
  match s with
  | EmptyString => negb previous_is_space
  | String c s' =>
      if PyStr.is_space c
      then Ascii.eqb c " " && negb previous_is_space && single_spaced_from true s'
      else single_spaced_from false s'
  end.

Definition single_spaced (s : string) : bool :=
  match s with
  | EmptyString => true
  | _ => single_spaced_from true s
  end.

(** The case pattern [str.title] leaves: a cased character is upper case
    exactly when the character before it is not cased. *)
Fixpoint title_cased_from (previous_is_cased : bool) (s : string) : bool :=
  match s with
  | EmptyString => true
  | String c s' =>
      (if PyStr.is_cased c
       then Bool.eqb (PyStr.is_upper c) (negb previous_is_cased)
       else true)
      && title_cased_from (PyStr.is_cased c) s'
  end.

Definition title_cased (s : string) : bool := title_cased_from false s.


(** A resolved absolute path, as its components below the file-system root. *)
Abbreviation path := (list string).

(** [str(path)] *)
Definition path_str (p : path) : string :=
  match p with
  | [] => "/"
  | _ => String.concat "" (List.map (fun c => "/" ++ c) p)
  end.

(** * The script *)

Section Script.

(** The text-to-float parser inside [pandas.to_numeric]; [None] when the
    text is not a number. *)
Variable str_to_float : string -> option float.

(** The text-to-timestamp parser inside [pandas.to_datetime], applied cell
    by cell, with its [dayfirst] argument; [None] when the text is not a
    date. *)
Variable str_to_datetime : bool -> string -> option Timestamp.

(** What [pandas.read_csv] returns, the reader itself, the selection of the
    seven columns the script accesses ([None] when one is absent), and
    [DataFrame.to_csv(index=False)]. *)
Variable table : Type.
Variable read_csv : string -> result table.
Variable columns : table -> option (list RawRow).
Variable to_csv : list CleanRow -> string.

(** [pd.to_numeric(cell, errors=...)] *)
Definition to_numeric (errors : errors_mode) (v : raw_number) : result float :=
  match v with
  | RawNum x => Ok x
  | RawNumText s =>
      match str_to_float s with
      | Some x => Ok x
      | None =>
          match errors with
          | ErrorsCoerce => Ok nan
          | ErrorsRaise => Raise (ValueError s)
          end
      end
  end.

(** [pd.to_datetime(cell, errors=..., dayfirst=...)] *)
Definition to_datetime (errors : errors_mode) (dayfirst : bool) (v : raw_date)
  : result (option Timestamp) :=
  match v with
  | RawDateNaN => Ok None
  | RawDateStamp t => Ok (Some t)
  | RawDateText s =>
      match str_to_datetime dayfirst s with
      | Some t => Ok (Some t)
      | None =>
          match errors with
          | ErrorsCoerce => Ok None
          | ErrorsRaise => Raise (ValueError s)
          end
      end
  end.

(** Steps 1 to 4 of [main] on one row.  Each step is a column assignment
    that acts on every cell independently. *)
Definition prepare_row (r : RawRow) : result Row :=
  (* 1) Strip/standardize text columns *)
  let customer_name := standardize_name (raw_customer_name r) in
  let city := standardize_city (raw_city r) in
  let product := standardize_product (raw_product r) in
  (* 2) Coerce numerics *)
  let* price := to_numeric ErrorsCoerce (raw_price r) in
  let* quantity := to_numeric ErrorsCoerce (raw_quantity r) in
  (* 3) Parse dates *)
  let* order_date := to_datetime ErrorsCoerce true (raw_order_date r) in
  (* 4) Handle missing values *)
  let quantity_was_missing := isna quantity in
  let quantity := fillna quantity 1 in
  Ok {| df_order_id := raw_order_id r;
        df_customer_name := customer_name;
        df_city := city;
        df_product := product;
        df_price := price;
        df_quantity := quantity;
        df_order_date := order_date;
        df_quantity_was_missing := quantity_was_missing |}.

Fixpoint prepare (df : frame RawRow) : result (frame Row) :=
  match df with
  | [] => Ok []
  | (i, r) :: rest =>
      let* r' := prepare_row r in
      let* rest' := prepare rest in
      Ok ((i, r') :: rest')
  end.

(** The transformation of [main], from the frame read to the frame
    exported: steps 1 to 9. *)
Definition clean (df : frame RawRow) : result (frame CleanRow) :=
  let* df := prepare df in
  let df := drop_duplicates df in
  let df := dropna df in
  Ok (add_revenue df).

(** The frame at the critical-field filter: after step 5. *)
Definition before_filter (df : frame RawRow) : result (frame Row) :=
  let* df := prepare df in
  Ok (drop_duplicates df).

(** The cell values that steps 2 and 3 produce under [errors="coerce"]. *)
Definition coerced_number (v : raw_number) : float :=
  match v with
  | RawNum x => x
  | RawNumText s =>
      match str_to_float s with
      | Some x => x
      | None => nan
      end
  end.

Definition coerced_date (v : raw_date) : option Timestamp :=
  match v with
  | RawDateNaN => None
  | RawDateStamp t => Some t
  | RawDateText s => str_to_datetime true s
  end.

(** The number a raw cell holds: [None] for an absent cell and for text
    that is not a number. *)
Definition parsed_number (v : raw_number) : option float :=
  if isna (coerced_number v) then None else Some (coerced_number v).

(** The row that steps 1 to 4 make of a raw row. *)
Definition prepared (r : RawRow) : Row :=
  {| df_order_id := raw_order_id r;
     df_customer_name := standardize_name (raw_customer_name r);
     df_city := standardize_city (raw_city r);
     df_product := standardize_product (raw_product r);
     df_price := coerced_number (raw_price r);
     df_quantity := fillna (coerced_number (raw_quantity r)) 1;
     df_order_date := coerced_date (raw_order_date r);
     df_quantity_was_missing := isna (coerced_number (raw_quantity r)) |}.

Definition prepared_frame (df : frame RawRow) : frame Row :=
  List.map (fun ir => (fst ir, prepared (snd ir))) df.



(** ** The driver *)

(** What [main] prints, by the data each report is computed from. *)
Inductive event :=
  | PrintRawSnapshot (t : table)
  | PrintOrderNote (groups : list (ident * nat))
  | PrintDropped (n : nat)
  | PrintCleanSnapshot (rows : list CleanRow)
  | PrintSaved (p : path).

Record world := mkWorld
  { files : gmap path string;
    dirs : gset path;
    stdout : list event }.

(** A computation of the script: it may raise, and keeps the effects made
    before that. *)
Definition M (A : Type) := world -> result A * world.

Definition ret {A : Type} (a : A) : M A := fun w => (Ok a, w).

Definition raise {A : Type} (e : exn) : M A := fun w => (Raise e, w).

Definition mbind {A B : Type} (m : M A) (k : A -> M B) : M B :=
  fun w =>
    match m w with
    | (Ok a, w') => k a w'
    | (Raise e, w') => (Raise e, w')
    end.

Notation "'do' x '<-' m ';' k" := (mbind m (fun x => k))
  (at level 10, x name, m at level 100, k at level 200).
Notation "m ';;' k" := (mbind m (fun _ => k))
  (at level 100, k at level 200, right associativity).

Definition lift {A : Type} (m : result A) : M A := fun w => (m, w).

Definition print (e : event) : M unit :=
  fun w => (Ok tt, {| files := files w; dirs := dirs w; stdout := (stdout w ++ [e])%list |}).

(** [p.exists()] *)
Definition path_exists (p : path) : M bool :=
  fun w => (Ok (bool_decide (is_Some (files w !! p)) || bool_decide (p ∈ dirs w)), w).

(** The paths [take 0 p], ..., [take (length p - 1) p] above [p]. *)
Definition ancestors (p : path) : list path :=
  List.map (fun k => take k p) (seq 0 (length p)).

(** [p.mkdir(parents=True, exist_ok=True)] *)
Definition mkdir_parents_exist_ok (p : path) : M unit :=
  fun w =>
    if bool_decide (is_Some (files w !! p)) then (Raise FileExistsError, w)
    else if existsb (fun a => bool_decide (is_Some (files w !! a))) (ancestors p)
    then (Raise NotADirectoryError, w)
    else (Ok tt, {| files := files w;
                    dirs := dirs w ∪ list_to_set (p :: ancestors p);
                    stdout := stdout w |}).

(** [pd.read_csv(p)] on a path that exists. *)
Definition read_file (p : path) : M table :=
  fun w =>
    match files w !! p with
    | Some content => (read_csv content, w)
    | None => (Raise IsADirectoryError, w)
    end.

(** [df.to_csv(p, index=False)] *)
Definition write_csv (p : path) (df : frame CleanRow) : M unit :=
  fun w =>
    if bool_decide (p ∈ dirs w) then (Raise IsADirectoryError, w)
    else (Ok tt, {| files := <[p := to_csv (List.map snd df)]> (files w);
                    dirs := dirs w;
                    stdout := stdout w |}).

(** [main], for the project root [Path(__file__).resolve().parents[1]]. *)
Definition main (root : path) : M unit :=
  let in_path := (root ++ ["data"; "raw_sales_data.csv"])%list in
  let out_dir := (root ++ ["cleaned"])%list in
  let out_path := (out_dir ++ ["clean_sales_data.csv"])%list in
  mkdir_parents_exist_ok out_dir ;;
  do found <- path_exists in_path ;
  (if negb found
   then raise (FileNotFoundError ("Input file not found: " ++ path_str in_path))
   else ret tt) ;;
  do t <- read_file in_path ;
  print (PrintRawSnapshot t) ;;
  do rows <- lift (match columns t with Some rows => Ok rows | None => Raise KeyError end) ;
  (* steps 1 to 4 *)
  do df <- lift (prepare (range_index rows)) ;
  (* 5) Remove duplicate rows *)
  let df := drop_duplicates df in
  (* 6) Validate & handle duplicate order_id situations *)
  let dup_order_counts := value_counts (List.map (fun ir => df_order_id (snd ir)) df) in
  let remaining_dup_orders :=
    List.filter (fun g => (1 <? snd g)%nat) dup_order_counts in
  (match remaining_dup_orders with
   | [] => ret tt
   | _ => print (PrintOrderNote (firstn 10 remaining_dup_orders))
   end) ;;
  (* 7) Drop rows that are not usable for analysis *)
  let before := length df in
  let df := dropna df in
  let dropped := (before - length df)%nat in
  (if (dropped =? 0)%nat then ret tt else print (PrintDropped dropped)) ;;
  (* 8) Create derived columns, 9) consistent column order *)
  let df := add_revenue df in
  (* 10) Export *)
  write_csv out_path df ;;
  print (PrintCleanSnapshot (List.map snd df)) ;;
  print (PrintSaved out_path).

End Script.

Arguments files {table} w.
Arguments dirs {table} w.
Arguments stdout {table} w.
Arguments mkWorld {table} files dirs stdout.
Arguments ret {table A} a w.
Arguments raise {table A} e w.

(** * The library parsers, modelled

    The script is run on concrete rows with the two parsers below in the
    place of the library's. *)
Module Sample.

Definition digit_value (c : ascii) : option Z :=
  let n := nat_of_ascii c in
  if (48 <=? n)%nat && (n <=? 57)%nat then Some (Z.of_nat (n - 48)) else None.

Fixpoint digits_from (acc : Z) (s : string) : option Z :=
  match s with
  | EmptyString => Some acc
  | String c s' =>
      match digit_value c with
      | Some d => digits_from (10 * acc + d) s'
      | None => None
      end
  end.

Definition digits (s : string) : option Z :=
  match s with
  | EmptyString => None
  | _ => digits_from 0 s
  end.

(** The text before the first [sep], and the text after it if there is one. *)
Fixpoint split_at (sep : ascii) (s : string) : string * option string :=
  match s with
  | EmptyString => (EmptyString, None)
  | String c s' =>
      if Ascii.eqb c sep then (EmptyString, Some s')
      else let '(a, b) := split_at sep s' in (String c a, b)
  end.

Definition float_of_Z (z : Z) : float := PrimFloat.of_uint63 (Uint63.of_Z z).

(** Modelled from the spec: the text parser inside [pandas.to_numeric],
    which is library code and not part of the repository.  Section 4.2: a
    raw value is parsed as a decimal number, and a value that cannot be
    parsed (non-numeric text, empty) yields nothing.  The model reads
    unsigned decimal numerals such as [12] or [9.99]. *)
Definition str_to_float (s : string) : option float :=
  match split_at "." s with
  | (whole, None) => option_map float_of_Z (digits whole)
  | (whole, Some frac) =>
      match digits (whole ++ frac) with
      | Some n => Some (PrimFloat.div (float_of_Z n) (float_of_Z (10 ^ Z.of_nat (String.length frac))))
      | None => None
      end
  end.

Definition days_in_month (y m : Z) : Z :=
  if (m =? 2)%Z
  then if ((y mod 4 =? 0) && negb (y mod 100 =? 0) || (y mod 400 =? 0))%Z then 29 else 28
  else if ((m =? 4) || (m =? 6) || (m =? 9) || (m =? 11))%Z then 30 else 31.

Definition calendar_date (y m d : Z) : option Timestamp :=
  if ((1 <=? m) && (m <=? 12) && (1 <=? d) && (d <=? days_in_month y m))%Z
  then Some {| ts_year := y; ts_month := m; ts_day := d; ts_nanos := 0 |}
  else None.

(** The three fields of a text [f1-f2-f3]. *)
Definition date_fields (s : string) : option (string * string * string) :=
  match split_at "-" s with
  | (f1, Some rest) =>
      match split_at "-" rest with
      | (f2, Some f3) => Some (f1, f2, f3)
      | _ => None
      end
  | _ => None
  end.

(** The date that the numbers [a], [b] and the year [y] stand for: with
    [dayfirst] the reading day-month is preferred and month-day is the
    fallback, without it the other way round. *)
Definition read_date (dayfirst : bool) (a b y : Z) : option Timestamp :=
  let day_month := calendar_date y b a in
  let month_day := calendar_date y a b in
  if dayfirst
  then match day_month with Some t => Some t | None => month_day end
  else match month_day with Some t => Some t | None => day_month end.

(** Modelled from the spec: the text parser inside [pandas.to_datetime],
    which is library code and not part of the repository.  Section 4.3: a
    raw date string is parsed into a calendar date, the day-before-month
    reading being preferred when the format is ambiguous ([03-06-2023] is
    3 June), and an unparseable or empty value yields nothing.  The model
    reads the numeric dates [A-B-YYYY] and [YYYY-MM-DD]. *)
Definition str_to_datetime (dayfirst : bool) (s : string) : option Timestamp :=
  match date_fields s with
  | Some (f1, f2, f3) =>
      match digits f1, digits f2, digits f3 with
      | Some a, Some b, Some c =>
          if (String.length f1 =? 4)%nat then calendar_date a b c
          else read_date dayfirst a b c
      | _, _, _ => None
      end
  | None => None
  end.

(** Two orders that differ only in that the first has no quantity and the
    second has the quantity 1, what the transformation makes of them, and
    what it makes of that. *)
Definition order_without_quantity : RawRow :=
  mkRawRow (IdInt 7) (Some "ann  lee") (Some "PARIS") (Some "widget")
           (RawNum 5%float) (RawNum nan) (RawDateText "14-06-2023").

Definition order_with_quantity_one : RawRow :=
  mkRawRow (IdInt 7) (Some "ann  lee") (Some "PARIS") (Some "widget")
           (RawNum 5%float) (RawNum 1%float) (RawDateText "14-06-2023").

Definition twin_orders : frame RawRow :=
  range_index [order_without_quantity; order_with_quantity_one].




(** The rows of the specification's scenarios. *)
Definition order_john : RawRow :=
  mkRawRow (IdInt 1) (Some " john smith ") (Some "PARIS") (Some "widget")
           (RawNumText "9.99") (RawNumText "2") (RawDateText "03-06-2023").

Definition order_jane : RawRow :=
  mkRawRow (IdInt 2) (Some "Jane Doe") (Some "London") (Some "Gadget")
           (RawNumText "5.00") (RawNum nan) (RawDateText "14-06-2023").

Definition order_bob : RawRow :=
  mkRawRow (IdInt 3) (Some "Bob") (Some "NYC") (Some "Thing")
           (RawNum nan) (RawNumText "3") (RawDateText "01-01-2023").

Definition third_of_june : Timestamp :=
  {| ts_year := 2023; ts_month := 6; ts_day := 3; ts_nanos := 0 |}.

(** A reader that knows one file, whose table is the list of its rows, and
    a writer that puts down the customer names. *)
Definition scenario_rows : list RawRow := [order_john; order_jane; order_bob; order_john].

Definition read_csv (content : string) : result (list RawRow) :=
  if String.eqb content "scenarios" then Ok scenario_rows else Raise ParserError.

Definition columns (t : list RawRow) : option (list RawRow) := Some t.

Definition to_csv (rows : list CleanRow) : string :=
  String.concat ","
    (List.map (fun r => match customer_name r with Some n => n | None => "" end) rows).

(** A machine on which nothing exists yet, and a project root. *)
Definition empty_world : world (list RawRow) :=
  {| files := ∅; dirs := ∅; stdout := [] |}.

Definition project_root : path := ["srv"; "sales"].

(** The same machine with the one file in the input place. *)
Definition world_with_input : world (list RawRow) :=
  {| files := {[ ["srv"; "sales"; "data"; "raw_sales_data.csv"] := "scenarios" ]};
     dirs := ∅;
     stdout := [] |}.

End Sample.

(** * More Python string operations, used to state properties *)

(** [s.lower()] on ASCII text. *)
Fixpoint str_lower (s : string) : string :=
  match s with
  | EmptyString => EmptyString
  | String c s' => String (PyStr.to_lower c) (str_lower s')
  end.

(** [s.isspace()], also true of the empty text here. *)
Fixpoint all_space (s : string) : bool :=
  match s with
  | EmptyString => true
  | String c s' => PyStr.is_space c && all_space s'
  end.

(** [s] begins with a character that is no whitespace. *)
Definition starts_word (s : string) : bool :=
  match s with
  | EmptyString => false
  | String c _ => negb (PyStr.is_space c)
  end.

(** [s.split()]: the maximal runs of characters that are no whitespace. *)
Fixpoint str_split (s : string) : list string :=
  match s with
  | EmptyString => []
  | String c s' =>
      if PyStr.is_space c then str_split s'
      else if starts_word s'
           then match str_split s' with
                | w :: ws => String c w :: ws
                | [] => [String c EmptyString]
                end
           else String c EmptyString :: str_split s'
  end.

(** No character of [s] is whitespace. *)
Fixpoint no_space (s : string) : bool :=
  match s with
  | EmptyString => true
  | String c s' => negb (PyStr.is_space c) && no_space s'
  end.



Definition world_with_unreadable_input : world (list RawRow) :=
  {| files := {[ ["srv"; "sales"; "data"; "raw_sales_data.csv"] := "garbled" ]};
     dirs := ∅;
     stdout := [] |}.

(** * Properties of the string primitives *)

Module PyStrFacts.
Import PyStr.

(** Every fact about one character is settled on the 256 characters. *)
Ltac each_char c :=
  destruct c as [[|] [|] [|] [|] [|] [|] [|] [|]];
  vm_compute; try reflexivity; try discriminate; try tauto.

Lemma is_space_to_upper c : is_space (to_upper c) = is_space c.
Proof. each_char c. Qed.

Lemma is_space_to_lower c : is_space (to_lower c) = is_space c.
Proof. each_char c. Qed.

Lemma space_to_upper c : is_space c = true -> to_upper c = c.
Proof. each_char c. Qed.

Lemma space_to_lower c : is_space c = true -> to_lower c = c.
Proof. each_char c. Qed.

Lemma is_cased_to_upper c : is_cased (to_upper c) = is_cased c.
Proof. each_char c. Qed.

Lemma is_cased_to_lower c : is_cased (to_lower c) = is_cased c.
Proof. each_char c. Qed.



Lemma is_upper_to_upper c : is_cased c = true -> is_upper (to_upper c) = true.
Proof. each_char c. Qed.

Lemma is_upper_to_lower c : is_cased c = true -> is_upper (to_lower c) = false.
Proof. each_char c. Qed.

Lemma uncased_to_upper c : is_cased c = false -> to_upper c = c.
Proof. each_char c. Qed.

Lemma uncased_to_lower c : is_cased c = false -> to_lower c = c.
Proof. each_char c. Qed.

Lemma space_uncased c : is_space c = true -> is_cased c = false.
Proof. each_char c. Qed.

Lemma is_space_recase b c : is_space (recase b c) = is_space c.
Proof. destruct b; [apply is_space_to_lower | apply is_space_to_upper]. Qed.

Lemma is_cased_recase b c : is_cased (recase b c) = is_cased c.
Proof. destruct b; [apply is_cased_to_lower | apply is_cased_to_upper]. Qed.


Lemma space_recase b c : is_space c = true -> recase b c = c.
Proof. destruct b; [apply space_to_lower | apply space_to_upper]. Qed.

(** ** Stripping *)

Lemma rstrip_cons c s : is_space c = false -> rstrip (String c s) = String c (rstrip s).
Proof. intros Hc. simpl. rewrite Hc. destruct (rstrip s); reflexivity. Qed.

Lemma rstrip_ends_clean s b : rstrip s <> EmptyString -> ends_clean b (rstrip s) = true.
Proof.
  revert b. induction s as [|c s IH]; intros b Hne; [contradiction|].
  simpl in *. destruct (rstrip s) as [|d t] eqn:Hr.
  - destruct (is_space c) eqn:Hc; [contradiction|]. simpl. now rewrite Hc.
  - change (ends_clean (is_space c) (String d t) = true). apply IH. discriminate.
Qed.

Lemma lstrip_head s :
  lstrip s = EmptyString \/ exists c t, lstrip s = String c t /\ is_space c = false.
Proof.
  induction s as [|c s IH]; [now left|]. simpl.
  destruct (is_space c) eqn:Hc; [exact IH|]. right. eauto.
Qed.

Lemma strip_shape s :
  strip s = EmptyString
  \/ exists c t, strip s = String c t /\ is_space c = false /\ ends_clean false t = true.
Proof.
  unfold strip. destruct (lstrip_head s) as [->|(c & t & -> & Hc)]; [now left|].
  right. exists c, (rstrip t). rewrite rstrip_cons by exact Hc. repeat split; [exact Hc|].
  destruct (rstrip t) eqn:Hr; [reflexivity|]. rewrite <- Hr.
  apply rstrip_ends_clean. rewrite Hr. discriminate.
Qed.

(** ** Collapsing *)

Lemma sub_ws_single_spaced s b :
  ends_clean b s = true -> single_spaced_from b (sub_ws b s) = true.
Proof.
  revert b. induction s as [|c s IH]; intros b H; simpl in *; [exact H|].
  destruct (is_space c) eqn:Hc.
  - destruct b; [now apply IH|]. simpl. now rewrite IH.
  - simpl. rewrite Hc. now apply IH.
Qed.

Lemma normal_form_single_spaced s : single_spaced (collapse_spaces (strip s)) = true.
Proof.
  destruct (strip_shape s) as [->|(c & t & -> & Hc & Ht)]; [reflexivity|].
  unfold collapse_spaces. simpl. rewrite Hc. simpl. rewrite Hc.
  now apply sub_ws_single_spaced.
Qed.





(** ** Title-casing *)

Lemma title_from_single_spaced s b p :
  single_spaced_from p (title_from b s) = single_spaced_from p s.
Proof.
  revert b p. induction s as [|c s IH]; intros b p; [reflexivity|].
  simpl. fold (recase b c). rewrite is_space_recase.
  destruct (is_space c) eqn:Hc.
  - rewrite (space_recase b c Hc), IH. reflexivity.
  - apply IH.
Qed.

Lemma title_single_spaced s : single_spaced (title s) = single_spaced s.
Proof.
  destruct s as [|c s]; [reflexivity|]. unfold single_spaced, title.
  change (title_from false (String c s)) with (String (recase false c) (title_from (is_cased c) s)).
  change (single_spaced_from true (title_from false (String c s)) = single_spaced_from true (String c s)).
  apply title_from_single_spaced.
Qed.


Lemma title_from_title_cased s b : title_cased_from b (title_from b s) = true.
Proof.
  revert b. induction s as [|c s IH]; intros b; [reflexivity|].
  simpl. fold (recase b c). rewrite is_cased_recase, IH, andb_true_r.
  destruct (is_cased c) eqn:Hc; [|reflexivity].
  destruct b; simpl; [now rewrite is_upper_to_lower | now rewrite is_upper_to_upper].
Qed.

End PyStrFacts.

Module TitleFacts.
Import PyStr PyStrFacts.

(** When no letter follows a character that is neither a letter nor
    whitespace, [str.title] and word capitalisation write the same text. *)
Lemma title_from_capitalize s pc ws :
  pc && ws = false ->
  plain_words_from (negb pc && negb ws) s = true ->
  title_from pc s = capitalize_words_from ws s.
Proof.
  revert pc ws. induction s as [|c s IH]; intros pc ws Hx Hp; [reflexivity|].
  simpl in *. apply andb_prop in Hp as [Hc Hp]. f_equal.
  - destruct pc, ws; simpl in *; try reflexivity; try discriminate.
    apply negb_true_iff in Hc.
    now rewrite (uncased_to_upper c Hc), (uncased_to_lower c Hc).
  - apply IH; [|exact Hp].
    destruct (is_space c) eqn:Hs; [|apply andb_false_r].
    now rewrite (space_uncased c Hs).
Qed.

Lemma plain_words_lstrip s : plain_words_from false s = true -> plain_words_from false (lstrip s) = true.
Proof.
  induction s as [|c s IH]; intros H; [reflexivity|]. simpl.
  destruct (is_space c) eqn:Hs; [|exact H]. apply IH.
  simpl in H. now rewrite Hs, (space_uncased c Hs) in H.
Qed.

Lemma plain_words_rstrip s b : plain_words_from b s = true -> plain_words_from b (rstrip s) = true.
Proof.
  revert b. induction s as [|c s IH]; intros b H; [reflexivity|].
  simpl in *. apply andb_prop in H as [Hc H]. specialize (IH _ H).
  destruct (rstrip s) as [|d t].
  - destruct (is_space c); [reflexivity|]. simpl. now rewrite Hc.
  - change (negb (b && is_cased c) && plain_words_from (negb (is_cased c) && negb (is_space c)) (String d t) = true).
    now rewrite Hc, IH.
Qed.

Lemma plain_words_sub_ws s in_run b :
  (in_run = true -> b = false) ->
  plain_words_from b s = true -> plain_words_from b (sub_ws in_run s) = true.
Proof.
  revert in_run b. induction s as [|c s IH]; intros in_run b Hb H; [reflexivity|].
  simpl in *. apply andb_prop in H as [Hc H].
  destruct (is_space c) eqn:Hs.
  - rewrite (space_uncased c Hs) in H. simpl in H.
    destruct in_run.
    + rewrite (Hb eq_refl). now apply IH.
    + simpl. rewrite andb_false_r. simpl. now apply IH.
  - simpl. rewrite Hc. simpl. rewrite Hs in *. apply IH; [discriminate|exact H].
Qed.

Lemma plain_words_normal_form s :
  plain_words s = true -> plain_words (collapse_spaces (strip s)) = true.
Proof.
  unfold plain_words, collapse_spaces, strip. intros H.
  apply plain_words_sub_ws; [discriminate|].
  now apply plain_words_rstrip, plain_words_lstrip.
Qed.

End TitleFacts.

(** * The text normalisers *)

Lemma standardize_same_function v :
  standardize_name v = standardize_city v /\ standardize_product v = standardize_city v.
Proof. destruct v; split; reflexivity. Qed.




(** C5, as the claim words it, fails: the claim has the first letter of each
    whitespace-delimited word upper-cased and the rest of the word
    lower-cased, which makes [o'neil] into [O'neil]; [str.title] also
    upper-cases the letter after the apostrophe. *)
Lemma standardize_name_apostrophe_differs :
  standardize_name (Some "o'neil") = Some "O'Neil"
  /\ spec_normalize (Some "o'neil") = Some "O'neil"
  /\ standardize_name (Some "o'neil") <> spec_normalize (Some "o'neil").
Proof. repeat split. discriminate. Qed.

(** C5 (amended): each of the three normalisers propagates a missing value,
    and on a text strips both ends, collapses every whitespace run to one
    space and title-cases the result as [str.title] does: a letter is upper
    case when no letter stands directly before it and lower case otherwise,
    so that an apostrophe, a hyphen or a digit starts a new word as
    whitespace does.  [mcdonald] and [MCDONALD] both become [Mcdonald].  On
    text whose letters only follow letters or whitespace this is the
    capitalisation of whitespace-delimited words. *)
Theorem standardize_title_cases_after_every_non_letter :
  (forall v : text_cell,
      standardize_name v = standardize_city v
      /\ standardize_product v = standardize_city v
      /\ match v with
         | None => standardize_city v = None
         | Some s =>
             exists t,
               standardize_city v = Some t
               /\ t = PyStr.title (PyStr.collapse_spaces (PyStr.strip s))
               /\ single_spaced t = true
               /\ title_cased t = true
               /\ (plain_words s = true -> spec_normalize v = Some t)
         end)
  /\ standardize_name (Some "mcdonald") = Some "Mcdonald"
  /\ standardize_name (Some "MCDONALD") = Some "Mcdonald"
  /\ standardize_name (Some "jean-luc  o'NEIL ") = Some "Jean-Luc O'Neil".
Proof.
  split; [|repeat split].
  intros v. destruct (standardize_same_function v) as [Hn Hp].
  split; [exact Hn|]. split; [exact Hp|].
  destruct v as [s|]; [|reflexivity].
  exists (PyStr.title (PyStr.collapse_spaces (PyStr.strip s))).
  split; [reflexivity|]. split; [reflexivity|]. split; [|split].
  - rewrite PyStrFacts.title_single_spaced. apply PyStrFacts.normal_form_single_spaced.
  - apply PyStrFacts.title_from_title_cased.
  - intros Hplain. simpl. f_equal. symmetry.
    apply TitleFacts.title_from_capitalize; [reflexivity|].
    now apply TitleFacts.plain_words_normal_form.
Qed.

(** * Equality of cells and rows *)

Module RowFacts.

Lemma finite_compare_eq (e1 e2 : Z) (m1 m2 : positive) :
  match (e1 ?= e2)%Z with
  | Lt => Lt
  | Gt => Gt
  | Eq => Pos.compare_cont Eq m1 m2
  end = Eq <-> e1 = e2 /\ m1 = m2.
Proof.
  destruct (Z.compare_spec e1 e2) as [He|He|He].
  - change (Pos.compare_cont Eq m1 m2) with (Pos.compare m1 m2).
    rewrite Pos.compare_eq_iff. tauto.
  - split; [discriminate|]. intros [E _]. lia.
  - split; [discriminate|]. intros [E _]. lia.
Qed.

Lemma finite_compare_opp_eq (e1 e2 : Z) (m1 m2 : positive) :
  match (e1 ?= e2)%Z with
  | Lt => Gt
  | Gt => Lt
  | Eq => CompOpp (Pos.compare_cont Eq m1 m2)
  end = Eq <-> e1 = e2 /\ m1 = m2.
Proof.
  destruct (Z.compare_spec e1 e2) as [He|He|He].
  - change (Pos.compare_cont Eq m1 m2) with (Pos.compare m1 m2).
    rewrite <- Pos.compare_eq_iff. destruct (Pos.compare m1 m2); simpl; intuition congruence.
  - split; [discriminate|]. intros [E _]. lia.
  - split; [discriminate|]. intros [E _]. lia.
Qed.

(** IEEE equality is equality of keys, away from NaN. *)
Lemma SFeqb_key x y :
  SFeqb x y = true <-> sf_key x = sf_key y /\ x <> S754_nan.
Proof.
  unfold SFeqb.
  destruct x as [s1|s1| |s1 m1 e1], y as [s2|s2| |s2 m2 e2];
    try (destruct s1); try (destruct s2); simpl;
    try (split;
         [ intros H; first [discriminate H | split; [reflexivity | discriminate]]
         | intros [E N]; first [reflexivity | discriminate E | contradiction] ]).
  - pose proof (finite_compare_opp_eq e1 e2 m1 m2) as F. split.
    + intros H. destruct (proj1 F) as [-> ->]; [|split; [reflexivity|discriminate]].
      destruct (e1 ?= e2)%Z, (Pos.compare_cont Eq m1 m2); simpl in *;
        first [reflexivity | discriminate H].
    + intros [E _]. injection E as -> ->. now rewrite (proj2 F (conj eq_refl eq_refl)).
  - pose proof (finite_compare_eq e1 e2 m1 m2) as F. split.
    + intros H. destruct (proj1 F) as [-> ->]; [|split; [reflexivity|discriminate]].
      destruct (e1 ?= e2)%Z, (Pos.compare_cont Eq m1 m2); simpl in *;
        first [reflexivity | discriminate H].
    + intros [E _]. injection E as -> ->. now rewrite (proj2 F (conj eq_refl eq_refl)).
Qed.

Lemma sf_key_None x : sf_key x = None <-> x = S754_nan.
Proof. destruct x; simpl; split; intros H; first [reflexivity | discriminate H]. Qed.

Lemma isna_key a : isna a = true <-> float_key a = None.
Proof.
  unfold isna, PrimFloat.is_nan, float_key. rewrite FloatAxioms.eqb_spec, negb_true_iff, sf_key_None.
  pose proof (SFeqb_key (Prim2SF a) (Prim2SF a)) as K.
  destruct (SFeqb (Prim2SF a) (Prim2SF a)).
  - destruct (proj1 K eq_refl) as [_ N]. split; [discriminate|]. intros E. contradiction.
  - split; [intros _|reflexivity].
    destruct (Prim2SF a) eqn:E; try reflexivity;
      (assert (false = true) as X by (apply K; split; [reflexivity|discriminate]); discriminate X).
Qed.

Lemma isna_false_key a : isna a = false <-> float_key a <> None.
Proof. rewrite <- isna_key. destruct (isna a); split; congruence. Qed.

Lemma same_float_key a b : same_float a b = true <-> float_key a = float_key b.
Proof.
  unfold same_float. rewrite orb_true_iff, andb_true_iff, !isna_key, FloatAxioms.eqb_spec, SFeqb_key.
  unfold float_key. rewrite !sf_key_None. split.
  - intros [[E _]|[Ea Eb]]; [exact E|]. now rewrite Ea, Eb.
  - intros E. destruct (Prim2SF a) eqn:Ea;
      try (left; split; [exact E|discriminate]).
    right. split; [reflexivity|]. apply sf_key_None. now rewrite <- E.
Qed.

Lemma same_text_eq a b : same_text a b = true <-> a = b.
Proof.
  destruct a as [s|], b as [t|]; simpl; try (split; [discriminate|intros [=]]);
    [|tauto]. rewrite String.eqb_eq. split; congruence.
Qed.

Lemma same_ident_eq a b : same_ident a b = true <-> a = b.
Proof.
  destruct a, b; simpl; try (split; [discriminate|intros [=]]); try tauto.
  - rewrite Z.eqb_eq. split; congruence.
  - rewrite String.eqb_eq. split; congruence.
Qed.

Lemma same_timestamp_eq a b : same_timestamp a b = true <-> a = b.
Proof.
  destruct a, b. unfold same_timestamp. simpl.
  rewrite !andb_true_iff, !Z.eqb_eq. split; [intros [[[-> ->] ->] ->]; reflexivity|].
  intros [= -> -> -> ->]. tauto.
Qed.

Lemma same_date_eq a b : same_date a b = true <-> a = b.
Proof.
  destruct a as [s|], b as [t|]; simpl; try (split; [discriminate|intros [=]]);
    [|tauto]. rewrite same_timestamp_eq. split; congruence.
Qed.

(** Two rows are the same exactly when their keys are equal. *)
Lemma same_row_key a b : same_row a b = true <-> row_key a = row_key b.
Proof.
  unfold same_row, row_key.
  rewrite !andb_true_iff, !same_ident_eq, !same_text_eq, !same_float_key,
    same_date_eq, Bool.eqb_true_iff.
  split; [intros [[[[[[[-> ->] ->] ->] ->] ->] ->] ->]; reflexivity|].
  intros [= -> -> -> -> -> -> -> ->]. tauto.
Qed.

Lemma same_row_refl a : same_row a a = true.
Proof. now apply same_row_key. Qed.

Lemma same_row_sym a b : same_row a b = same_row b a.
Proof.
  destruct (same_row a b) eqn:E1, (same_row b a) eqn:E2; try reflexivity.
  - apply same_row_key in E1. symmetry in E1. apply same_row_key in E1. congruence.
  - apply same_row_key in E2. symmetry in E2. apply same_row_key in E2. congruence.
Qed.

Lemma same_row_trans a b c :
  same_row a b = true -> same_row b c = true -> same_row a c = true.
Proof. rewrite !same_row_key. congruence. Qed.

End RowFacts.

(** * Frame operations *)

Module FrameFacts.
Import RowFacts.

Lemma existsb_false {A : Type} (f : A -> bool) (l : list A) :
  existsb f l = false <-> Forall (fun x => f x = false) l.
Proof.
  induction l as [|a l IH]; simpl.
  - split; [constructor|reflexivity].
  - rewrite orb_false_iff, IH. split.
    + intros [H1 H2]. now constructor.
    + intros H. inversion H; subst. tauto.
Qed.

Lemma sublist_map_inv {A B : Type} (f : A -> B) (l : list B) (df : list A) :
  sublist l (List.map f df) -> exists k, sublist k df /\ l = List.map f k.
Proof.
  revert l. induction df as [|a df IH]; intros l H; simpl in H.
  - apply sublist_nil_r in H. subst. exists []. split; constructor.
  - apply sublist_cons_r in H as [H|(l' & -> & H)];
      destruct (IH _ H) as (k & Hk & ->).
    + exists k. split; [now constructor|reflexivity].
    + exists (a :: k). split; [now constructor|reflexivity].
Qed.

Lemma filter_sublist {A : Type} (f : A -> bool) (l : list A) :
  sublist (List.filter f l) l.
Proof.
  induction l as [|a l IH]; simpl; [constructor|].
  destruct (f a); now constructor.
Qed.

Lemma sublist_In {A : Type} (k l : list A) x : sublist k l -> In x k -> In x l.
Proof.
  induction 1 as [|y k l _ IH|y k l _ IH]; simpl; intros H; [exact H| |]; tauto.
Qed.

Lemma sublist_Forall {A : Type} (P : A -> Prop) (k l : list A) :
  sublist k l -> Forall P l -> Forall P k.
Proof.
  induction 1 as [|y k l _ IH|y k l _ IH]; intros H; [exact H| |];
    inversion H; subst; [constructor|]; auto.
Qed.

Lemma sublist_ordered_pairs {A : Type} (R : A -> A -> Prop) (k l : list A) :
  sublist k l -> ForallOrdPairs R l -> ForallOrdPairs R k.
Proof.
  induction 1 as [|y k l Hs IH|y k l _ IH]; intros H; [exact H| |];
    inversion H; subst; [|now auto].
  constructor; [|now auto]. eapply sublist_Forall; eassumption.
Qed.

(** ** [drop_duplicates] *)

Lemma drop_duplicates_from_sublist seen df : sublist (drop_duplicates_from seen df) df.
Proof.
  revert seen. induction df as [|[i r] df IH]; intros seen; simpl; [constructor|].
  destruct (existsb _ seen); now constructor.
Qed.

(** A kept row is the same as no row seen before it. *)
Lemma drop_duplicates_from_unseen seen df :
  Forall (fun x => Forall (fun s => same_row s (snd x) = false) seen)
         (drop_duplicates_from seen df).
Proof.
  revert seen. induction df as [|[i r] df IH]; intros seen; simpl; [constructor|].
  assert (T : Forall (fun x => Forall (fun s => same_row s (snd x) = false) seen)
                     (drop_duplicates_from (r :: seen) df)).
  { eapply List.Forall_impl; [|apply IH]. simpl. intros x H. now inversion H. }
  destruct (existsb _ seen) eqn:E; [exact T|].
  constructor; [|exact T]. now apply existsb_false in E.
Qed.

Lemma drop_duplicates_from_distinct seen df :
  ForallOrdPairs (fun x y => same_row (snd x) (snd y) = false)
                 (drop_duplicates_from seen df).
Proof.
  revert seen. induction df as [|[i r] df IH]; intros seen; simpl; [constructor|].
  destruct (existsb _ seen); [apply IH|].
  constructor; [|apply IH].
  eapply List.Forall_impl; [|apply (drop_duplicates_from_unseen (r :: seen) df)].
  simpl. intros x H. now inversion H.
Qed.

(** The first row of a frame that is the same as a given row of it is kept,
    unless a row seen before the frame is the same. *)
Lemma drop_duplicates_from_first seen df x :
  In x df ->
  Forall (fun s => same_row s (snd x) = false) seen ->
  exists l1 y l2,
    df = (l1 ++ y :: l2)%list
    /\ same_row (snd y) (snd x) = true
    /\ Forall (fun z => same_row (snd z) (snd x) = false) l1
    /\ In y (drop_duplicates_from seen df).
Proof.
  revert seen. induction df as [|[i r] df IH]; intros seen Hin Hseen; [contradiction|].
  destruct (same_row r (snd x)) eqn:Hr.
  - exists [], (i, r), df. repeat split; [exact Hr|constructor|].
    simpl. destruct (existsb _ seen) eqn:E; [|now left].
    apply existsb_exists in E as (s & Hs & Hsr).
    rewrite List.Forall_forall in Hseen. specialize (Hseen s Hs).
    now rewrite (same_row_trans _ _ _ Hsr Hr) in Hseen.
  - destruct Hin as [<-|Hin]; [simpl in Hr; now rewrite same_row_refl in Hr|].
    destruct (IH (r :: seen) Hin) as (l1 & y & l2 & -> & Hy & Hl1 & Hk);
      [now constructor|].
    exists ((i, r) :: l1), y, l2. repeat split; [exact Hy|now constructor|].
    simpl. destruct (existsb _ seen); [exact Hk|now right].
Qed.


Lemma ordered_pairs_map {A B : Type} (R : A -> A -> Prop) (R' : B -> B -> Prop)
      (f : A -> B) (l : list A) :
  (forall x y, R x y -> R' (f x) (f y)) ->
  ForallOrdPairs R l -> ForallOrdPairs R' (List.map f l).
Proof.
  intros HR. induction 1 as [|x l Hx _ IH]; simpl; constructor; [|exact IH].
  apply List.Forall_forall. intros y Hy. apply in_map_iff in Hy as (z & <- & Hz).
  apply HR. rewrite List.Forall_forall in Hx. now apply Hx.
Qed.

Lemma ordered_pairs_impl {A : Type} (R R' : A -> A -> Prop) (l : list A) :
  (forall x y, R x y -> R' x y) -> ForallOrdPairs R l -> ForallOrdPairs R' l.
Proof.
  intros HR H. rewrite <- (map_id l). now apply (ordered_pairs_map R R' (fun x => x)).
Qed.

(** Exported records are the same only if the rows they extend are. *)
Lemma same_clean_row_with_revenue a b :
  same_clean_row (with_revenue a) (with_revenue b) = true -> same_row a b = true.
Proof.
  unfold same_clean_row, same_row. simpl. rewrite !andb_true_iff. tauto.
Qed.

Lemma distinct_with_revenue a b :
  same_row a b = false ->
  same_clean_row (with_revenue a) (with_revenue b) = false
  /\ same_clean_row (with_revenue b) (with_revenue a) = false.
Proof.
  intros H. split.
  - destruct (same_clean_row _ _) eqn:E; [|reflexivity].
    apply same_clean_row_with_revenue in E. congruence.
  - destruct (same_clean_row _ _) eqn:E; [|reflexivity].
    apply same_clean_row_with_revenue in E. rewrite same_row_sym in E. congruence.
Qed.



End FrameFacts.

(** * The transformation *)

Section CleanFacts.

Variable str_to_float : string -> option float.
Variable str_to_datetime : bool -> string -> option Timestamp.

Local Abbreviation to_numeric := (to_numeric str_to_float).
Local Abbreviation to_datetime := (to_datetime str_to_datetime).
Local Abbreviation coerced_number := (coerced_number str_to_float).
Local Abbreviation coerced_date := (coerced_date str_to_datetime).
Local Abbreviation parsed_number := (parsed_number str_to_float).
Local Abbreviation prepare_row := (prepare_row str_to_float str_to_datetime).
Local Abbreviation prepared := (prepared str_to_float str_to_datetime).
Local Abbreviation prepare := (prepare str_to_float str_to_datetime).
Local Abbreviation prepared_frame := (prepared_frame str_to_float str_to_datetime).
Local Abbreviation before_filter := (before_filter str_to_float str_to_datetime).
Local Abbreviation clean := (clean str_to_float str_to_datetime).

(** With [errors="coerce"] neither coercion raises. *)
Lemma to_numeric_coerce v : to_numeric ErrorsCoerce v = Ok (coerced_number v).
Proof. destruct v as [s|x]; simpl; [destruct (str_to_float s)|]; reflexivity. Qed.

Lemma to_datetime_coerce v : to_datetime ErrorsCoerce true v = Ok (coerced_date v).
Proof. destruct v as [s| |t]; simpl; [destruct (str_to_datetime true s)| |]; reflexivity. Qed.

Lemma prepare_row_ok r : prepare_row r = Ok (prepared r).
Proof.
  unfold prepare_row. rewrite !to_numeric_coerce, to_datetime_coerce. reflexivity.
Qed.

Lemma prepare_ok df : prepare df = Ok (prepared_frame df).
Proof.
  induction df as [|[i r] df IH]; [reflexivity|].
  simpl. rewrite prepare_row_ok, IH. reflexivity.
Qed.

Lemma before_filter_ok df : before_filter df = Ok (drop_duplicates (prepared_frame df)).
Proof. unfold before_filter. now rewrite prepare_ok. Qed.

Lemma clean_ok df :
  clean df = Ok (add_revenue (dropna (drop_duplicates (prepared_frame df)))).
Proof. unfold clean. now rewrite prepare_ok. Qed.

(** ** Step 4 *)

Lemma fillna_present x : isna (fillna x 1) = false.
Proof. unfold fillna. destruct (isna x) eqn:E; [reflexivity|exact E]. Qed.

Lemma prepared_quantity_present r : isna (df_quantity (prepared r)) = false.
Proof. apply fillna_present. Qed.

Lemma prepared_flag r :
  df_quantity_was_missing (prepared r) = true <-> parsed_number (raw_quantity r) = None.
Proof.
  unfold parsed_number. simpl.
  destruct (isna (coerced_number (raw_quantity r))); split; congruence.
Qed.

Lemma prepared_flag_quantity r :
  df_quantity_was_missing (prepared r) = true -> df_quantity (prepared r) = 1%float.
Proof. simpl. unfold fillna. now intros ->. Qed.

Lemma prepared_number_quantity r q :
  parsed_number (raw_quantity r) = Some q ->
  df_quantity (prepared r) = q /\ df_quantity_was_missing (prepared r) = false.
Proof.
  unfold parsed_number. simpl. unfold fillna.
  destruct (isna (coerced_number (raw_quantity r))); [discriminate|].
  intros [= <-]. split; reflexivity.
Qed.

(** ** Where an exported record comes from *)

Lemma In_prepared_frame df i p :
  In (i, p) (prepared_frame df) -> exists raw, In (i, raw) df /\ p = prepared raw.
Proof.
  unfold prepared_frame. rewrite in_map_iff.
  intros ([j raw] & [= <- <-] & Hin). eauto.
Qed.

Lemma clean_provenance df i c :
  In (i, c) (add_revenue (dropna (drop_duplicates (prepared_frame df)))) ->
  exists raw,
    In (i, raw) df /\ c = with_revenue (prepared raw) /\ usable (prepared raw) = true.
Proof.
  unfold add_revenue, dropna. rewrite in_map_iff.
  intros ([j p] & [= <- <-] & Hin). apply filter_In in Hin as [Hin Hu].
  apply (FrameFacts.sublist_In _ _ _ (FrameFacts.drop_duplicates_from_sublist [] _)) in Hin.
  apply In_prepared_frame in Hin as (raw & Hraw & ->). eauto.
Qed.

Lemma In_range_index {A : Type} (rows : list A) i x :
  In (i, x) (range_index rows) -> nth_error rows i = Some x.
Proof.
  unfold range_index. replace i with (i - 0)%nat at 2 by lia.
  generalize 0%nat as s. induction rows as [|a rows IH]; intros s H; [contradiction|].
  simpl in H. destruct H as [[= <- <-]|H].
  - now rewrite Nat.sub_diag.
  - assert (S s <= i)%nat as L.
    { apply in_combine_l in H. apply in_seq in H. lia. }
    apply IH in H. replace (i - s)%nat with (S (i - S s)) by lia. exact H.
Qed.

(** ** The exported records *)

(** C1: whatever the input frame, the transformation returns a frame, and
    every record of it has a price, a quantity and an order date that are
    not missing. *)
Theorem clean_output_has_critical_fields :
  forall df : frame RawRow,
  exists out,
    clean df = Ok out
    /\ Forall (fun ir =>
                 isna (price (snd ir)) = false
                 /\ isna (quantity (snd ir)) = false
                 /\ isnat (order_date (snd ir)) = false) out.
Proof.
  intros df. eexists. split; [apply clean_ok|].
  apply List.Forall_forall. intros [i c] Hin.
  apply clean_provenance in Hin as (raw & _ & -> & Hu).
  unfold usable in Hu. rewrite !andb_true_iff, !negb_true_iff in Hu.
  simpl. tauto.
Qed.

(** C2: every exported record comes from the raw record with its label;
    its flag is set exactly when that raw quantity is absent or is no
    number, in which case its quantity is 1; otherwise its quantity is the
    number parsed and the flag is off. *)
Theorem quantity_flag_marks_missing_raw_quantity :
  forall rows : list RawRow,
  exists out,
    clean (range_index rows) = Ok out
    /\ Forall (fun ir =>
                 exists raw,
                   nth_error rows (fst ir) = Some raw
                   /\ (quantity_was_missing (snd ir) = true
                       <-> parsed_number (raw_quantity raw) = None)
                   /\ (quantity_was_missing (snd ir) = true
                       -> quantity (snd ir) = 1%float)
                   /\ (forall q, parsed_number (raw_quantity raw) = Some q ->
                                 quantity (snd ir) = q
                                 /\ quantity_was_missing (snd ir) = false)) out.
Proof.
  intros rows. eexists. split; [apply clean_ok|].
  apply List.Forall_forall. intros [i c] Hin.
  apply clean_provenance in Hin as (raw & Hraw & -> & _).
  exists raw. split; [now apply In_range_index|].
  split; [apply prepared_flag|].
  split; [apply prepared_flag_quantity|].
  intros q Hq. now apply prepared_number_quantity.
Qed.


(** C9: in the frame that reaches the critical-field filter no quantity is
    missing; the filter keeps exactly the rows whose price and order date
    are present, and what it keeps is what is exported. *)
Theorem filter_drops_only_missing_price_or_date :
  forall df : frame RawRow,
  exists D out,
    before_filter df = Ok D
    /\ clean df = Ok out
    /\ Forall (fun ir => isna (df_quantity (snd ir)) = false) D
    /\ dropna D
       = List.filter (fun ir => negb (isna (df_price (snd ir)))
                                && negb (isnat (df_order_date (snd ir)))) D
    /\ out = add_revenue (dropna D)
    /\ Forall (fun ir =>
                 In ir (dropna D)
                 <-> isna (df_price (snd ir)) = false
                     /\ isnat (df_order_date (snd ir)) = false) D.
Proof.
  intros df. do 2 eexists.
  split; [apply before_filter_ok|]. split; [apply clean_ok|].
  set (D := drop_duplicates (prepared_frame df)).
  assert (HD : Forall (fun ir => isna (df_quantity (snd ir)) = false) D).
  { apply List.Forall_forall. intros [i p] Hin.
    apply (FrameFacts.sublist_In _ _ _ (FrameFacts.drop_duplicates_from_sublist [] _)) in Hin.
    apply In_prepared_frame in Hin as (raw & _ & ->). apply prepared_quantity_present. }
  assert (HU : forall ir, In ir D ->
                 usable (snd ir)
                 = negb (isna (df_price (snd ir))) && negb (isnat (df_order_date (snd ir)))).
  { intros ir Hin. rewrite List.Forall_forall in HD. unfold usable.
    rewrite (HD ir Hin). simpl. now rewrite andb_true_r. }
  split; [exact HD|]. split; [|split; [reflexivity|]].
  - unfold dropna. apply filter_ext_in. exact HU.
  - apply List.Forall_forall. intros ir Hin. unfold dropna.
    rewrite filter_In, (HU ir Hin), andb_true_iff, !negb_true_iff. tauto.
Qed.

(** ** Deduplication *)

(** C4: no two records of the deduplicated frame, and no two exported
    records, agree on every column (a missing value counting as equal to a
    missing value); of the rows that are the same as a given row the first
    one of the frame is kept; and the rows kept, as the records exported,
    stand in the order of the input. *)
Theorem drop_duplicates_keeps_first_of_each_group :
  forall df : frame RawRow,
  exists P D out,
    prepare df = Ok P
    /\ D = drop_duplicates P
    /\ clean df = Ok out
    /\ ForallOrdPairs (fun x y => same_row (snd x) (snd y) = false
                                  /\ same_row (snd y) (snd x) = false) D
    /\ ForallOrdPairs (fun x y => same_clean_row (snd x) (snd y) = false
                                  /\ same_clean_row (snd y) (snd x) = false) out
    /\ Forall (fun x =>
                 exists l1 y l2,
                   P = (l1 ++ y :: l2)%list
                   /\ same_row (snd y) (snd x) = true
                   /\ Forall (fun z => same_row (snd z) (snd x) = false) l1
                   /\ In y D) P
    /\ sublist D P
    /\ exists kept,
         sublist kept df
         /\ out = List.map (fun ir => (fst ir, with_revenue (prepared (snd ir)))) kept.
Proof.
  intros df. do 3 eexists.
  split; [apply prepare_ok|]. split; [reflexivity|]. split; [apply clean_ok|].
  pose proof (FrameFacts.drop_duplicates_from_distinct [] (prepared_frame df)) as HD.
  fold (drop_duplicates (prepared_frame df)) in HD.
  split; [|split; [|split; [|split]]].
  - eapply FrameFacts.ordered_pairs_impl; [|exact HD]. simpl. intros x y H.
    split; [exact H|]. now rewrite RowFacts.same_row_sym.
  - unfold add_revenue. eapply FrameFacts.ordered_pairs_map.
    2:{ eapply FrameFacts.sublist_ordered_pairs; [apply FrameFacts.filter_sublist|exact HD]. }
    simpl. intros x y H. now apply FrameFacts.distinct_with_revenue.
  - apply List.Forall_forall. intros x Hx.
    apply FrameFacts.drop_duplicates_from_first; [exact Hx|constructor].
  - apply FrameFacts.drop_duplicates_from_sublist.
  - assert (S : sublist (dropna (drop_duplicates (prepared_frame df))) (prepared_frame df)).
    { etransitivity; [apply FrameFacts.filter_sublist|apply FrameFacts.drop_duplicates_from_sublist]. }
    apply FrameFacts.sublist_map_inv in S as (kept & Hk & E).
    exists kept. split; [exact Hk|]. rewrite E. unfold add_revenue.
    rewrite List.map_map. reflexivity.
Qed.

(** C10: a record whose raw quantity is missing and a record whose raw
    quantity parses to 1, alike in the seven input columns once normalised
    and coerced, both carry the quantity 1 and differ in the flag, so
    neither is a duplicate of the other: after [drop_duplicates] each is
    still represented by a row with its values and its flag, and a frame of
    just the two is left as it is, although without the flag column the
    second would be dropped as a duplicate of the first. *)
Theorem flag_separates_substituted_from_genuine_one :
  forall (df : frame RawRow) (x y : nat * RawRow),
    In x df -> In y df ->
    parsed_number (raw_quantity (snd x)) = None ->
    parsed_number (raw_quantity (snd y)) = Some 1%float ->
    same_row (clear_flag (prepared (snd x))) (clear_flag (prepared (snd y))) = true ->
    df_quantity (prepared (snd x)) = 1%float
    /\ df_quantity (prepared (snd y)) = 1%float
    /\ same_row (prepared (snd x)) (prepared (snd y)) = false
    /\ same_row (prepared (snd y)) (prepared (snd x)) = false
    /\ drop_duplicates [(fst x, prepared (snd x)); (fst y, prepared (snd y))]
       = [(fst x, prepared (snd x)); (fst y, prepared (snd y))]
    /\ drop_duplicates (clear_flags [(fst x, prepared (snd x)); (fst y, prepared (snd y))])
       = [(fst x, clear_flag (prepared (snd x)))]
    /\ exists P x' y',
         prepare df = Ok P
         /\ In x' (drop_duplicates P) /\ In y' (drop_duplicates P)
         /\ same_row (snd x') (prepared (snd x)) = true
         /\ same_row (snd y') (prepared (snd y)) = true
         /\ df_quantity_was_missing (snd x') = true
         /\ df_quantity_was_missing (snd y') = false.
Proof.
  intros df [i a] [j b] Hx Hy Ha Hb Hagree. simpl in *.
  assert (Fa : df_quantity_was_missing (prepared a) = true) by now apply prepared_flag.
  destruct (prepared_number_quantity b _ Hb) as [Qb Fb].
  assert (Hab : same_row (prepared a) (prepared b) = false).
  { unfold same_row. rewrite Fa, Fb. simpl. now rewrite !andb_false_r. }
  assert (Hba : same_row (prepared b) (prepared a) = false).
  { now rewrite RowFacts.same_row_sym. }
  split; [now apply prepared_flag_quantity|]. split; [exact Qb|].
  split; [exact Hab|]. split; [exact Hba|]. split.
  { unfold drop_duplicates. simpl. now rewrite Hab. }
  split.
  { unfold drop_duplicates, clear_flags. simpl. now rewrite Hagree. }
  exists (prepared_frame df).
  assert (R : forall k r, In (k, r) df ->
              exists z, In z (drop_duplicates (prepared_frame df))
                        /\ same_row (snd z) (prepared r) = true).
  { intros k r Hin.
    destruct (FrameFacts.drop_duplicates_from_first [] (prepared_frame df) (k, prepared r))
      as (_ & z & _ & _ & Hz & _ & Hk); [|constructor|eauto].
    unfold prepared_frame. apply in_map_iff. exists (k, r). split; [reflexivity|exact Hin]. }
  destruct (R _ _ Hx) as (x' & Hx' & Sx). destruct (R _ _ Hy) as (y' & Hy' & Sy).
  exists x', y'. split; [apply prepare_ok|].
  repeat split; try assumption.
  - apply RowFacts.same_row_key in Sx. unfold row_key in Sx.
    injection Sx as _ _ _ _ _ _ _ E. now rewrite E.
  - apply RowFacts.same_row_key in Sy. unfold row_key in Sy.
    injection Sy as _ _ _ _ _ _ _ E. now rewrite E.
Qed.

(** ** Cleaning the exported frame again *)






End CleanFacts.


(** * Dates *)




(** * The driver *)

Section MainFacts.

Variable str_to_float : string -> option float.
Variable str_to_datetime : bool -> string -> option Timestamp.
Variable table : Type.
Variable read_csv : string -> result table.
Variable columns : table -> option (list RawRow).
Variable to_csv : list CleanRow -> string.

Local Abbreviation main := (main str_to_float str_to_datetime table read_csv columns to_csv).

Lemma ancestors_shorter (p a : path) : In a (ancestors p) -> (length a < length p)%nat.
Proof.
  unfold ancestors. rewrite in_map_iff. intros (k & <- & Hk).
  apply in_seq in Hk. rewrite length_take. lia.
Qed.

(** Making the output directory does not make the input file. *)
Lemma input_not_created (root : path) :
  (root ++ ["data"; "raw_sales_data.csv"])%list
  ∉ (list_to_set ((root ++ ["cleaned"])%list :: ancestors (root ++ ["cleaned"])%list) : gset path).
Proof.
  rewrite elem_of_list_to_set, elem_of_cons. intros [E|E].
  - apply (f_equal (@length string)) in E. rewrite !length_app in E. simpl in E. lia.
  - apply list_elem_of_In in E. apply ancestors_shorter in E.
    rewrite !length_app in E. simpl in E. lia.
Qed.

(** C8: when the input path names neither a file nor a directory, [main]
    raises, having written no file and printed nothing: it raises
    [FileNotFoundError] with a message that names the input path, unless the
    output directory could not be made, in which case making it raises and
    nothing at all has changed. *)
Theorem main_raises_without_input :
  forall (root : path) (w : world table),
    let in_path := (root ++ ["data"; "raw_sales_data.csv"])%list in
    files w !! in_path = None ->
    in_path ∉ dirs w ->
    exists e w',
      main root w = (Raise e, w')
      /\ files w' = files w
      /\ stdout w' = stdout w
      /\ (e = FileNotFoundError ("Input file not found: " ++ path_str in_path)
          \/ ((e = FileExistsError \/ e = NotADirectoryError) /\ w' = w)).
Proof.
  intros root w in_path Hfile Hdir. subst in_path.
  unfold main, mbind, mkdir_parents_exist_ok.
  match goal with
  | |- context [if ?b then (Raise FileExistsError, _) else _] => destruct b
  end.
  { exists FileExistsError, w. repeat split. right. split; [now left|reflexivity]. }
  match goal with
  | |- context [if ?b then (Raise NotADirectoryError, _) else _] => destruct b
  end.
  { exists NotADirectoryError, w. repeat split. right. split; [now right|reflexivity]. }
  unfold path_exists. cbv beta iota. cbn [files dirs stdout]. rewrite Hfile.
  rewrite bool_decide_eq_false_2 by (intros [x Hx]; discriminate Hx).
  rewrite bool_decide_eq_false_2.
  2:{ rewrite elem_of_union. intros [H|H]; [exact (Hdir H)|].
      exact (input_not_created root H). }
  cbn [negb orb]. unfold raise. do 2 eexists. split; [reflexivity|].
  cbn [files dirs stdout]. repeat split. now left.
Qed.

End MainFacts.

(** * The script on the sample rows *)

(** The first three scenarios of the specification, and a repeated row. *)
Example scenarios_cleaned :
  exists john jane,
    clean Sample.str_to_float Sample.str_to_datetime
          (range_index [Sample.order_john; Sample.order_jane; Sample.order_bob;
                        Sample.order_john])
    = Ok [(0%nat, john); (1%nat, jane)]
    /\ customer_name john = Some "John Smith"
    /\ city john = Some "Paris"
    /\ product john = Some "Widget"
    /\ Sample.str_to_float "9.99" = Some (price john)
    /\ quantity john = 2%float
    /\ order_date john = Some Sample.third_of_june
    /\ Sample.str_to_float "19.98" = Some (revenue john)
    /\ quantity_was_missing john = false
    /\ (price jane, quantity jane, revenue jane) = (5%float, 1%float, 5%float)
    /\ quantity_was_missing jane = true.
Proof. do 2 eexists. vm_compute. repeat split. Qed.

Example main_in_empty_world :
  fst (main Sample.str_to_float Sample.str_to_datetime (list RawRow)
            Sample.read_csv Sample.columns Sample.to_csv
            Sample.project_root Sample.empty_world)
  = Raise (FileNotFoundError "Input file not found: /srv/sales/data/raw_sales_data.csv").
Proof. reflexivity. Qed.

(** On a machine that has the input, [main] prints the raw snapshot, counts
    the one row dropped for its missing price, writes the export and
    reports it. *)
Example main_on_scenarios :
  let run := main Sample.str_to_float Sample.str_to_datetime (list RawRow)
                  Sample.read_csv Sample.columns Sample.to_csv
                  Sample.project_root Sample.world_with_input in
  fst run = Ok tt
  /\ files (snd run) !! ["srv"; "sales"; "cleaned"; "clean_sales_data.csv"]
     = Some "John Smith,Jane Doe"
  /\ match stdout (snd run) with
     | [PrintRawSnapshot _ t; PrintDropped _ n; PrintCleanSnapshot _ rows; PrintSaved _ p] =>
         t = Sample.scenario_rows /\ n = 1%nat /\ length rows = 2%nat
         /\ p = ["srv"; "sales"; "cleaned"; "clean_sales_data.csv"]
     | _ => False
     end.
Proof. vm_compute. repeat split. Qed.

(** Two rows of one order are counted as a group of two. *)
Example value_counts_multi_line_order :
  List.filter (fun g => (1 <? snd g)%nat) (value_counts [IdInt 5; IdInt 6; IdNaN; IdInt 5])
  = [(IdInt 5, 2%nat)].
Proof. reflexivity. Qed.

(** C8 on a machine on which nothing exists. *)
Lemma sample_main_raises_without_input :
  files Sample.empty_world
    !! (Sample.project_root ++ ["data"; "raw_sales_data.csv"])%list = None
  /\ exists e w',
       main Sample.str_to_float Sample.str_to_datetime (list RawRow)
            Sample.read_csv Sample.columns Sample.to_csv
            Sample.project_root Sample.empty_world = (Raise e, w')
       /\ files w' = files Sample.empty_world
       /\ stdout w' = stdout Sample.empty_world.
Proof.
  split; [reflexivity|].
  destruct (main_raises_without_input
              Sample.str_to_float Sample.str_to_datetime (list RawRow)
              Sample.read_csv Sample.columns Sample.to_csv
              Sample.project_root Sample.empty_world)
    as (e & w' & Hm & Hf & Hs & _).
  - reflexivity.
  - compute_done.
  - exists e, w'. split; [exact Hm|]. split; [exact Hf|exact Hs].
Defined.

(** C10 on the two sample orders. *)
Lemma sample_twin_orders_kept_apart :
  parsed_number Sample.str_to_float (raw_quantity Sample.order_without_quantity) = None
  /\ parsed_number Sample.str_to_float (raw_quantity Sample.order_with_quantity_one)
     = Some 1%float
  /\ same_row (prepared Sample.str_to_float Sample.str_to_datetime
                        Sample.order_without_quantity)
              (prepared Sample.str_to_float Sample.str_to_datetime
                        Sample.order_with_quantity_one) = false
  /\ exists P x' y',
       prepare Sample.str_to_float Sample.str_to_datetime Sample.twin_orders = Ok P
       /\ In x' (drop_duplicates P) /\ In y' (drop_duplicates P)
       /\ df_quantity_was_missing (snd x') = true
       /\ df_quantity_was_missing (snd y') = false.
Proof.
  split; [reflexivity|]. split; [reflexivity|].
  destruct (flag_separates_substituted_from_genuine_one
              Sample.str_to_float Sample.str_to_datetime Sample.twin_orders
              (0%nat, Sample.order_without_quantity)
              (1%nat, Sample.order_with_quantity_one))
    as (_ & _ & Hab & _ & _ & _ & P & x' & y' & HP & Hx & Hy & _ & _ & Fx & Fy).
  - simpl. now left.
  - simpl. right. now left.
  - reflexivity.
  - reflexivity.
  - vm_compute. reflexivity.
  - split; [exact Hab|]. exists P, x', y'. repeat split; assumption.
Defined.

(** * Further properties of the normalisers *)

Module NormaliserFacts.
Import PyStr PyStrFacts.

Lemma to_lower_space : to_lower " " = " "%char.
Proof. reflexivity. Qed.

Lemma is_cased_lower c : is_cased (to_lower c) = is_cased c.
Proof. apply is_cased_to_lower. Qed.

Lemma recase_to_lower b c : recase b (to_lower c) = recase b c.
Proof. destruct b; each_char c. Qed.

Lemma lstrip_lower s : lstrip (str_lower s) = str_lower (lstrip s).
Proof.
  induction s as [|c s IH]; [reflexivity|]. simpl.
  rewrite is_space_to_lower. destruct (is_space c); [exact IH|reflexivity].
Qed.

Lemma rstrip_lower s : rstrip (str_lower s) = str_lower (rstrip s).
Proof.
  induction s as [|c s IH]; [reflexivity|]. simpl.
  rewrite IH, is_space_to_lower. destruct (rstrip s); simpl; [|reflexivity].
  destruct (is_space c); reflexivity.
Qed.

Lemma sub_ws_lower s b : sub_ws b (str_lower s) = str_lower (sub_ws b s).
Proof.
  revert b. induction s as [|c s IH]; intros b; [reflexivity|]. simpl.
  rewrite is_space_to_lower. destruct (is_space c).
  - destruct b; [apply IH|]. simpl. now rewrite IH.
  - simpl. now rewrite IH.
Qed.

Lemma title_from_lower s b : title_from b (str_lower s) = title_from b s.
Proof.
  revert b. induction s as [|c s IH]; intros b; [reflexivity|]. simpl.
  now rewrite recase_to_lower, is_cased_to_lower, IH.
Qed.

Lemma normal_form_lower s :
  title (collapse_spaces (strip (str_lower s))) = title (collapse_spaces (strip s)).
Proof.
  unfold title, collapse_spaces, strip.
  now rewrite lstrip_lower, rstrip_lower, sub_ws_lower, title_from_lower.
Qed.

(** ** Whitespace-only text *)

Lemma lstrip_all_space s : all_space s = true <-> lstrip s = EmptyString.
Proof.
  induction s as [|c s IH]; simpl; [tauto|].
  destruct (is_space c); simpl; [exact IH|]. split; discriminate.
Qed.

Lemma rstrip_empty s : rstrip s = EmptyString <-> all_space s = true.
Proof.
  induction s as [|c s IH]; simpl; [tauto|].
  destruct (rstrip s) eqn:E.
  - destruct (is_space c); simpl; [tauto|]. split; discriminate.
  - split; [discriminate|]. intros H. apply andb_prop in H as [_ H].
    apply IH in H. discriminate.
Qed.

Lemma lstrip_not_all_space s : lstrip s <> EmptyString -> all_space (lstrip s) = false.
Proof.
  induction s as [|c s IH]; simpl; [contradiction|].
  destruct (is_space c) eqn:Hc; [exact IH|]. intros _. simpl. now rewrite Hc.
Qed.

Lemma strip_empty s : strip s = EmptyString <-> all_space s = true.
Proof.
  unfold strip. rewrite rstrip_empty. split.
  - intros H. apply lstrip_all_space.
    destruct (lstrip s) eqn:E; [reflexivity|].
    rewrite <- E in H. rewrite lstrip_not_all_space in H; [discriminate|].
    rewrite E. discriminate.
  - intros H. apply lstrip_all_space in H. now rewrite H.
Qed.

Lemma sub_ws_empty s : sub_ws false s = EmptyString <-> s = EmptyString.
Proof.
  destruct s as [|c s]; simpl; [tauto|].
  destruct (is_space c); split; discriminate.
Qed.

Lemma title_from_empty s b : title_from b s = EmptyString <-> s = EmptyString.
Proof. destruct s; simpl; split; try discriminate; tauto. Qed.

Lemma length_lstrip s : (String.length (lstrip s) <= String.length s)%nat.
Proof.
  induction s as [|c s IH]; simpl; [lia|]. destruct (is_space c); simpl; lia.
Qed.

Lemma length_rstrip s : (String.length (rstrip s) <= String.length s)%nat.
Proof.
  induction s as [|c s IH]; simpl; [lia|].
  destruct (rstrip s); [destruct (is_space c)|]; simpl in *; lia.
Qed.

Lemma length_sub_ws s b : (String.length (sub_ws b s) <= String.length s)%nat.
Proof.
  revert b. induction s as [|c s IH]; intros b; simpl; [lia|].
  destruct (is_space c); [destruct b|]; simpl.
  - specialize (IH true). lia.
  - specialize (IH true). lia.
  - specialize (IH false). lia.
Qed.

Lemma length_title_from s b : String.length (title_from b s) = String.length s.
Proof. revert b. induction s as [|c s IH]; intros b; simpl; [reflexivity|]. now rewrite IH. Qed.

End NormaliserFacts.


(** X2: two texts that differ only in the case of their letters are
    normalised to the same text, by each of the three normalisers. *)
Theorem standardize_ignores_case :
  forall s1 s2 : string,
    str_lower s1 = str_lower s2 ->
    standardize_name (Some s1) = standardize_name (Some s2)
    /\ standardize_city (Some s1) = standardize_city (Some s2)
    /\ standardize_product (Some s1) = standardize_product (Some s2).
Proof.
  intros s1 s2 H.
  assert (E : PyStr.title (PyStr.collapse_spaces (PyStr.strip s1))
              = PyStr.title (PyStr.collapse_spaces (PyStr.strip s2))).
  { rewrite <- (NormaliserFacts.normal_form_lower s1), <- (NormaliserFacts.normal_form_lower s2).
    now rewrite H. }
  unfold standardize_name, standardize_city, standardize_product.
  now rewrite E.
Qed.

Lemma standardize_ignores_case_paris :
  str_lower "PARIS" = str_lower "paRis"
  /\ standardize_city (Some "PARIS") = standardize_city (Some "paRis").
Proof.
  split; [reflexivity|].
  destruct (standardize_ignores_case "PARIS" "paRis" eq_refl) as (_ & H & _). exact H.
Defined.

(** X3: a normaliser never makes a text missing and never makes it longer;
    the result is the empty text exactly when the input holds nothing but
    whitespace. *)
Theorem standardize_empty_only_for_blank :
  forall s : string,
  exists t,
    standardize_name (Some s) = Some t
    /\ standardize_city (Some s) = Some t
    /\ standardize_product (Some s) = Some t
    /\ (String.length t <= String.length s)%nat
    /\ (t = EmptyString <-> all_space s = true).
Proof.
  intros s. eexists. split; [reflexivity|]. split; [reflexivity|]. split; [reflexivity|].
  split.
  - unfold PyStr.title, PyStr.collapse_spaces, PyStr.strip.
    rewrite NormaliserFacts.length_title_from.
    pose proof (NormaliserFacts.length_sub_ws (PyStr.rstrip (PyStr.lstrip s)) false).
    pose proof (NormaliserFacts.length_rstrip (PyStr.lstrip s)).
    pose proof (NormaliserFacts.length_lstrip s). lia.
  - unfold PyStr.title, PyStr.collapse_spaces.
    rewrite NormaliserFacts.title_from_empty, NormaliserFacts.sub_ws_empty.
    apply NormaliserFacts.strip_empty.
Qed.

(** * Further properties of the frame operations *)

Module FilterFacts.
Import RowFacts FrameFacts.

(** Rows that are the same are usable together. *)
Lemma usable_same a b : same_row a b = true -> usable a = usable b.
Proof.
  intros H. apply same_row_key in H. unfold row_key in H.
  injection H as _ _ _ _ Hp Hq Hd _. unfold usable. rewrite Hd.
  assert (P : isna (df_price a) = isna (df_price b)).
  { destruct (isna (df_price a)) eqn:Ea, (isna (df_price b)) eqn:Eb; try reflexivity.
    - apply isna_key in Ea. rewrite Hp in Ea. apply isna_key in Ea. congruence.
    - apply isna_key in Eb. rewrite <- Hp in Eb. apply isna_key in Eb. congruence. }
  assert (Q : isna (df_quantity a) = isna (df_quantity b)).
  { destruct (isna (df_quantity a)) eqn:Ea, (isna (df_quantity b)) eqn:Eb; try reflexivity.
    - apply isna_key in Ea. rewrite Hq in Ea. apply isna_key in Ea. congruence.
    - apply isna_key in Eb. rewrite <- Hq in Eb. apply isna_key in Eb. congruence. }
  now rewrite P, Q.
Qed.

Lemma existsb_usable_seen seen r :
  usable r = true ->
  existsb (fun s => same_row s r) (List.filter usable seen)
  = existsb (fun s => same_row s r) seen.
Proof.
  intros Hr. induction seen as [|s seen IH]; [reflexivity|]. simpl.
  destruct (usable s) eqn:Hs; simpl; [now rewrite IH|].
  rewrite IH. destruct (same_row s r) eqn:E; [|reflexivity].
  apply usable_same in E. congruence.
Qed.

(** Filtering before deduplicating is deduplicating before filtering. *)
Lemma drop_duplicates_from_dropna seen df :
  drop_duplicates_from (List.filter usable seen) (dropna df)
  = dropna (drop_duplicates_from seen df).
Proof.
  revert seen. induction df as [|[i r] df IH]; intros seen; [reflexivity|].
  unfold dropna in *. simpl. destruct (usable r) eqn:Hr.
  - simpl. rewrite (existsb_usable_seen seen r Hr).
    specialize (IH (r :: seen)). simpl in IH. rewrite Hr in IH.
    destruct (existsb _ seen); simpl; [exact IH|]. rewrite Hr. now rewrite IH.
  - specialize (IH (r :: seen)). simpl in IH. rewrite Hr in IH.
    destruct (existsb _ seen); simpl; [exact IH|]. rewrite Hr. exact IH.
Qed.



End FilterFacts.

Section ExportFacts.

Variable str_to_float : string -> option float.
Variable str_to_datetime : bool -> string -> option Timestamp.

Local Abbreviation coerced_date := (coerced_date str_to_datetime).
Local Abbreviation parsed_number := (parsed_number str_to_float).
Local Abbreviation prepared := (prepared str_to_float str_to_datetime).
Local Abbreviation prepare := (prepare str_to_float str_to_datetime).
Local Abbreviation prepared_frame := (prepared_frame str_to_float str_to_datetime).
Local Abbreviation clean := (clean str_to_float str_to_datetime).





(** X5: steps 5 and 7 commute: dropping the rows with a missing critical
    field before removing duplicates exports the same frame. *)
Theorem filter_and_deduplication_commute :
  forall df : frame RawRow,
  exists P out,
    prepare df = Ok P
    /\ clean df = Ok out
    /\ dropna (drop_duplicates P) = drop_duplicates (dropna P)
    /\ out = add_revenue (drop_duplicates (dropna P)).
Proof.
  intros df. do 2 eexists. split; [apply prepare_ok|]. split; [apply clean_ok|].
  assert (E : dropna (drop_duplicates (prepared_frame df))
              = drop_duplicates (dropna (prepared_frame df))).
  { unfold drop_duplicates. rewrite <- FilterFacts.drop_duplicates_from_dropna. reflexivity. }
  split; [exact E|]. now rewrite E.
Qed.

End ExportFacts.

(** * The duplicate-key diagnostic *)

Module CountFacts.
Import RowFacts.

Lemma same_ident_refl x : same_ident x x = true.
Proof. now apply same_ident_eq. Qed.

Lemma same_ident_neq x y : x <> y -> same_ident x y = false.
Proof.
  intros H. destruct (same_ident x y) eqn:E; [|reflexivity].
  apply same_ident_eq in E. contradiction.
Qed.

Lemma existsb_same_ident x seen : existsb (same_ident x) seen = true <-> In x seen.
Proof.
  rewrite existsb_exists. split.
  - intros (y & Hy & E). apply same_ident_eq in E. now subst.
  - intros H. exists x. split; [exact H|apply same_ident_refl].
Qed.

Lemma count_ident_filter x l : count_ident x l = length (List.filter (same_ident x) l).
Proof.
  induction l as [|y l IH]; [reflexivity|]. simpl.
  destruct (same_ident x y); simpl; now rewrite IH.
Qed.

Lemma value_counts_from_cons seen y l :
  y <> IdNaN ->
  value_counts_from seen (y :: l)
  = if existsb (same_ident y) seen then value_counts_from seen l
    else (y, S (count_ident y l)) :: value_counts_from (y :: seen) l.
Proof. intros H. destruct y; [reflexivity|reflexivity|contradiction]. Qed.

Lemma value_counts_from_In seen l x n :
  In (x, n) (value_counts_from seen l)
  <-> x <> IdNaN /\ In x l /\ ~ In x seen /\ n = count_ident x l.
Proof.
  revert seen. induction l as [|y l IH]; intros seen.
  - simpl. tauto.
  - destruct (same_ident_eq y IdNaN) as [_ HN].
    destruct (same_ident y IdNaN) eqn:EN.
    + apply same_ident_eq in EN. subst y. simpl value_counts_from. rewrite IH. simpl.
      split.
      * intros (H1 & H2 & H3 & ->). rewrite (same_ident_neq x IdNaN H1). tauto.
      * intros (H1 & [H2|H2] & H3 & ->); [congruence|].
        rewrite (same_ident_neq x IdNaN H1). tauto.
    + assert (Hy : y <> IdNaN) by (intros ->; discriminate EN).
      rewrite (value_counts_from_cons seen y l Hy).
      destruct (existsb (same_ident y) seen) eqn:E.
      * apply existsb_same_ident in E. rewrite IH. simpl. split.
        -- intros (H1 & H2 & H3 & ->).
           assert (x <> y) by (intros ->; contradiction).
           rewrite (same_ident_neq x y) by assumption. tauto.
        -- intros (H1 & [H2|H2] & H3 & ->); [subst; contradiction|].
           assert (x <> y) by (intros ->; contradiction).
           rewrite (same_ident_neq x y) by assumption. tauto.
      * assert (Hns : ~ In y seen).
        { intros H. apply existsb_same_ident in H. congruence. }
        simpl In. rewrite IH. simpl. split.
        -- intros [[= <- <-]|(H1 & H2 & H3 & ->)].
           ++ rewrite same_ident_refl. tauto.
           ++ assert (x <> y) by (intros ->; tauto).
              rewrite (same_ident_neq x y) by assumption. tauto.
        -- intros (H1 & H2 & H3 & ->).
           destruct (same_ident x y) eqn:Exy.
           ++ apply same_ident_eq in Exy. subst y. now left.
           ++ right. assert (x <> y) by (intros ->; rewrite same_ident_refl in Exy; discriminate).
              destruct H2 as [H2|H2]; [congruence|].
              split; [exact H1|]. split; [exact H2|]. split; [|reflexivity].
              intros [E1|E1]; [congruence|contradiction].
Qed.

Lemma count_ident_positive x l : (0 < count_ident x l)%nat -> In x l.
Proof.
  induction l as [|y l IH]; simpl; [lia|].
  destruct (same_ident x y) eqn:E.
  - apply same_ident_eq in E. now left.
  - intros H. right. apply IH. exact H.
Qed.

Lemma value_counts_from_NoDup seen l : List.NoDup (List.map fst (value_counts_from seen l)).
Proof.
  revert seen. induction l as [|y l IH]; intros seen; [constructor|].
  destruct (same_ident y IdNaN) eqn:EN.
  - apply same_ident_eq in EN. subst y. apply IH.
  - assert (Hy : y <> IdNaN) by (intros ->; discriminate EN).
    rewrite (value_counts_from_cons seen y l Hy).
    destruct (existsb (same_ident y) seen); [apply IH|].
    simpl. apply List.NoDup_cons; [|apply IH].
    intros H. apply in_map_iff in H as ([x n] & E & H). simpl in E. subst x.
    apply value_counts_from_In in H as (_ & _ & H & _). apply H. now left.
Qed.

Lemma NoDup_map_filter {A B : Type} (f : A -> B) (g : A -> bool) (l : list A) :
  List.NoDup (List.map f l) -> List.NoDup (List.map f (List.filter g l)).
Proof.
  induction l as [|a l IH]; simpl; intros H; [constructor|].
  inversion H as [|? ? Hn Hl]; subst. destruct (g a); simpl; [|now apply IH].
  apply List.NoDup_cons; [|now apply IH].
  intros Hin. apply Hn. apply in_map_iff in Hin as (b & E & Hb).
  apply filter_In in Hb as [Hb _]. apply in_map_iff. eauto.
Qed.

End CountFacts.

(** X6: the groups that the duplicate-key diagnostic reports are exactly the
    non-missing order identifiers that occur more than once, each listed
    once with the number of its occurrences. *)
Theorem repeated_order_ids_reported :
  forall l : list ident,
    List.NoDup (List.map fst (List.filter (fun g => (1 <? snd g)%nat) (value_counts l)))
    /\ forall x n,
         In (x, n) (List.filter (fun g => (1 <? snd g)%nat) (value_counts l))
         <-> x <> IdNaN
             /\ n = length (List.filter (same_ident x) l)
             /\ (2 <= n)%nat.
Proof.
  intros l. split.
  - apply CountFacts.NoDup_map_filter, CountFacts.value_counts_from_NoDup.
  - intros x n. rewrite filter_In. unfold value_counts.
    rewrite CountFacts.value_counts_from_In, <- CountFacts.count_ident_filter.
    simpl. rewrite Nat.ltb_lt. split.
    + intros ((H1 & _ & _ & ->) & H2). repeat split; [exact H1|lia].
    + intros (H1 & -> & H2). split; [|lia].
      split; [exact H1|]. split; [apply CountFacts.count_ident_positive; lia|].
      split; [intros []|reflexivity].
Qed.

(** * The effects of the driver *)

Section DriverFacts.

Variable str_to_float : string -> option float.
Variable str_to_datetime : bool -> string -> option Timestamp.
Variable table : Type.
Variable read_csv : string -> result table.
Variable columns : table -> option (list RawRow).
Variable to_csv : list CleanRow -> string.

Local Abbreviation main := (main str_to_float str_to_datetime table read_csv columns to_csv).
Local Abbreviation clean := (clean str_to_float str_to_datetime).
Local Abbreviation before_filter := (before_filter str_to_float str_to_datetime).
Local Abbreviation prepared_frame := (prepared_frame str_to_float str_to_datetime).

Lemma mbind_run {A B : Type} (m : M table A) (k : A -> M table B) (w : world table) :
  mbind table m k w
  = match m w with
    | (Ok a, w') => k a w'
    | (Raise e, w') => (Raise e, w')
    end.
Proof. reflexivity. Qed.

Lemma mkdir_ok (p : path) (w : world table) :
  files w !! p = None ->
  Forall (fun a => files w !! a = None) (ancestors p) ->
  mkdir_parents_exist_ok table p w
  = (Ok tt, {| files := files w;
               dirs := dirs w ∪ list_to_set (p :: ancestors p);
               stdout := stdout w |}).
Proof.
  intros Hp Ha. unfold mkdir_parents_exist_ok. rewrite Hp.
  rewrite bool_decide_eq_false_2 by (intros [x Hx]; discriminate Hx).
  replace (existsb _ (ancestors p)) with false; [reflexivity|].
  symmetry. apply FrameFacts.existsb_false.
  eapply List.Forall_impl; [|exact Ha]. simpl. intros a H. rewrite H.
  apply bool_decide_eq_false_2. intros [x Hx]. discriminate Hx.
Qed.

(** [mkdir] either raises and changes nothing, or adds the directories. *)
Lemma mkdir_cases (p : path) (w : world table) :
  (exists e, mkdir_parents_exist_ok table p w = (Raise e, w)
             /\ (e = FileExistsError \/ e = NotADirectoryError))
  \/ mkdir_parents_exist_ok table p w
     = (Ok tt, {| files := files w;
                  dirs := dirs w ∪ list_to_set (p :: ancestors p);
                  stdout := stdout w |}).
Proof.
  unfold mkdir_parents_exist_ok.
  destruct (bool_decide _); [left; eauto|].
  destruct (existsb _ _); [left; eauto|]. now right.
Qed.



(** Whatever happens, [main] leaves the files as they are or returns
    normally having written the output file. *)
Lemma main_files (root : path) (w : world table) r w' :
  main root w = (r, w') ->
  files w' = files w
  \/ (r = Ok tt
      /\ exists text,
           files w' = <[((root ++ ["cleaned"]) ++ ["clean_sales_data.csv"])%list := text]> (files w)).
Proof.
  unfold main. rewrite mbind_run.
  destruct (mkdir_cases (root ++ ["cleaned"])%list w) as [(e & -> & _)| ->];
    [intros [= <- <-]; now left|].
  cbv beta iota. rewrite mbind_run. unfold path_exists at 1. cbn [files dirs stdout].
  match goal with
  | |- context [if ?b then raise _ else ret tt] => destruct b
  end; rewrite mbind_run; [unfold raise at 1; intros [= <- <-]; now left|].
  unfold ret at 1. cbv beta iota. rewrite mbind_run. unfold read_file at 1.
  cbn [files dirs stdout].
  destruct (files w !! _) as [content|]; [|intros [= <- <-]; now left].
  destruct (read_csv content) as [t|e]; [|intros [= <- <-]; now left].
  cbv beta iota. rewrite mbind_run. unfold print at 1. cbv beta iota.
  cbn [files dirs stdout]. rewrite mbind_run. unfold lift at 1.
  destruct (columns t) as [rows|]; [|intros [= <- <-]; now left].
  cbv beta iota. rewrite mbind_run. unfold lift at 1. rewrite prepare_ok.
  cbv beta iota zeta. rewrite mbind_run.
  destruct (List.filter _ (value_counts _)) as [|g gs];
    [unfold ret at 1|unfold print at 1]; cbv beta iota; cbn [files dirs stdout];
    rewrite mbind_run.
  all: lazymatch goal with
       | |- context [if ?b then ret tt else print _ (PrintDropped _ _)] =>
           destruct b; [unfold ret at 1|unfold print at 1]
       end.
  all: cbv beta iota; cbn [files dirs stdout]; rewrite mbind_run;
    unfold write_csv at 1; cbn [files dirs stdout].
  all: lazymatch goal with
       | |- context [if ?b then (Raise IsADirectoryError, _) else _] =>
           destruct b; [intros [= <- <-]; now left|]
       end.
  all: cbv beta iota; rewrite mbind_run; unfold print; cbv beta iota;
    cbn [files dirs stdout]; intros [= <- <-]; right; split; [reflexivity|];
    cbn [files]; eauto.
Qed.


(** X9: [main] never changes or removes a file other than the output file;
    in particular the input file is left as it is. *)
Theorem main_touches_only_the_output_file :
  forall (root : path) (w : world table) (p : path),
    p <> ((root ++ ["cleaned"]) ++ ["clean_sales_data.csv"])%list ->
    files (snd (main root w)) !! p = files w !! p.
Proof.
  intros root w p Hp.
  destruct (main root w) as [r w'] eqn:Hm. simpl.
  destruct (main_files root w r w' Hm) as [->|(_ & text & ->)]; [reflexivity|].
  apply lookup_insert_ne. congruence.
Qed.

(** X10: the output directory is made before the input is looked for: a run
    that nothing hinders from making the directory, and that finds no
    input, raises [FileNotFoundError] and leaves the output directory and
    the directories above it behind. *)
Theorem main_makes_output_directory_before_failing :
  forall (root : path) (w : world table),
    let in_path := (root ++ ["data"; "raw_sales_data.csv"])%list in
    let out_dir := (root ++ ["cleaned"])%list in
    files w !! out_dir = None ->
    Forall (fun a => files w !! a = None) (ancestors out_dir) ->
    files w !! in_path = None ->
    in_path ∉ dirs w ->
    main root w
    = (Raise (FileNotFoundError ("Input file not found: " ++ path_str in_path)),
       {| files := files w;
          dirs := dirs w ∪ list_to_set (out_dir :: ancestors out_dir);
          stdout := stdout w |})
    /\ out_dir ∈ dirs (snd (main root w)).
Proof.
  intros root w in_path out_dir Hdir Hanc Hfile Hnd. subst in_path out_dir.
  assert (E : main root w
              = (Raise (FileNotFoundError
                          ("Input file not found: "
                           ++ path_str (root ++ ["data"; "raw_sales_data.csv"])%list)),
                 {| files := files w;
                    dirs := dirs w ∪ list_to_set ((root ++ ["cleaned"])%list
                                                   :: ancestors (root ++ ["cleaned"])%list);
                    stdout := stdout w |})).
  { unfold main. rewrite mbind_run, (mkdir_ok _ w Hdir Hanc). cbv beta iota.
    rewrite mbind_run. unfold path_exists at 1. cbn [files dirs stdout].
    rewrite Hfile. rewrite bool_decide_eq_false_2 by (intros [x Hx]; discriminate Hx).
    rewrite bool_decide_eq_false_2.
    2:{ rewrite elem_of_union. intros [H|H]; [exact (Hnd H)|].
        exact (input_not_created root H). }
    cbn [orb negb]. rewrite mbind_run. reflexivity. }
  split; [exact E|]. rewrite E. cbn [snd dirs].
  rewrite elem_of_union, elem_of_list_to_set. right. apply elem_of_cons. now left.
Qed.

(** X11: when the input file is there but cannot be read, [main] raises the
    reader's error having printed nothing; when it is read but lacks one of
    the seven columns, [main] raises [KeyError] having printed the raw
    snapshot and nothing else. *)
Theorem main_raises_on_unreadable_input :
  forall (root : path) (w : world table) (content : string),
    let in_path := (root ++ ["data"; "raw_sales_data.csv"])%list in
    let out_dir := (root ++ ["cleaned"])%list in
    files w !! out_dir = None ->
    Forall (fun a => files w !! a = None) (ancestors out_dir) ->
    files w !! in_path = Some content ->
    (forall e,
        read_csv content = Raise e ->
        main root w
        = (Raise e,
           {| files := files w;
              dirs := dirs w ∪ list_to_set (out_dir :: ancestors out_dir);
              stdout := stdout w |}))
    /\ (forall t,
          read_csv content = Ok t ->
          columns t = None ->
          main root w
          = (Raise KeyError,
             {| files := files w;
                dirs := dirs w ∪ list_to_set (out_dir :: ancestors out_dir);
                stdout := (stdout w ++ [PrintRawSnapshot table t])%list |})).
Proof.
  intros root w content in_path out_dir Hdir Hanc Hin. subst in_path out_dir.
  assert (Start : forall k : unit -> M table unit,
             mbind table (mkdir_parents_exist_ok table (root ++ ["cleaned"])%list)
                   (fun _ => mbind table
                               (path_exists table (root ++ ["data"; "raw_sales_data.csv"])%list)
                               (fun found =>
                                  mbind table
                                        (if negb found
                                         then raise (FileNotFoundError
                                                       ("Input file not found: "
                                                        ++ path_str (root ++ ["data"; "raw_sales_data.csv"])%list))
                                         else ret tt) k)) w
             = k tt {| files := files w;
                       dirs := dirs w ∪ list_to_set ((root ++ ["cleaned"])%list
                                                      :: ancestors (root ++ ["cleaned"])%list);
                       stdout := stdout w |}).
  { intros k. rewrite mbind_run, (mkdir_ok _ w Hdir Hanc). cbv beta iota.
    rewrite mbind_run. unfold path_exists at 1. cbn [files dirs stdout].
    rewrite Hin. rewrite bool_decide_eq_true_2 by eauto. cbn [orb negb].
    rewrite mbind_run. reflexivity. }
  split.
  - intros e Hread. unfold main. rewrite Start.
    rewrite mbind_run. unfold read_file at 1. cbn [files dirs stdout].
    now rewrite Hin, Hread.
  - intros t Hread Hcols. unfold main. rewrite Start.
    rewrite mbind_run. unfold read_file at 1. cbn [files dirs stdout].
    rewrite Hin, Hread. cbv beta iota.
    rewrite mbind_run. unfold print at 1. cbv beta iota. cbn [files dirs stdout].
    rewrite mbind_run. unfold lift at 1. now rewrite Hcols.
Qed.

End DriverFacts.

(** * Further properties of the transformation *)

Section StabilityFacts.

Variable str_to_float : string -> option float.
Variable str_to_datetime : bool -> string -> option Timestamp.

Local Abbreviation prepared := (prepared str_to_float str_to_datetime).
Local Abbreviation prepared_frame := (prepared_frame str_to_float str_to_datetime).
Local Abbreviation clean := (clean str_to_float str_to_datetime).






End StabilityFacts.

(** * The normalisers by words *)

Module WordFacts.
Import PyStr PyStrFacts.

Lemma concat_cons_word c w ws :
  String.concat " " (String c w :: ws) = String c (String.concat " " (w :: ws)).
Proof. destruct ws; reflexivity. Qed.

Lemma str_split_nil s : str_split s = [] <-> all_space s = true.
Proof.
  induction s as [|c s IH]; simpl; [tauto|].
  destruct (is_space c); simpl; [exact IH|].
  destruct (starts_word s); [destruct (str_split s)|]; split; discriminate.
Qed.

Lemma str_split_starts_word s : starts_word s = true -> str_split s <> [].
Proof.
  destruct s as [|c s]; simpl; [discriminate|].
  intros H. apply negb_true_iff in H. rewrite H.
  destruct (starts_word s); [destruct (str_split s)|]; discriminate.
Qed.

Lemma str_split_lstrip s : str_split (lstrip s) = str_split s.
Proof.
  induction s as [|c s IH]; [reflexivity|]. simpl.
  destruct (is_space c) eqn:Hc; [exact IH|]. simpl. now rewrite Hc.
Qed.

Lemma sub_ws_flag s b : starts_word s = true -> sub_ws b s = sub_ws false s.
Proof.
  destruct s as [|c s]; simpl; [discriminate|].
  intros H. apply negb_true_iff in H. now rewrite H.
Qed.

Lemma starts_word_rstrip s : starts_word s = true -> starts_word (rstrip s) = true.
Proof.
  destruct s as [|c s]; [discriminate|]. intros H. simpl in H.
  apply negb_true_iff in H. rewrite (rstrip_cons c s H). simpl. now rewrite H.
Qed.

(** Collapsing after stripping the right end writes the words with single
    spaces between them. *)
Lemma sub_ws_rstrip_words s :
  sub_ws true (rstrip s) = String.concat " " (str_split s).
Proof.
  induction s as [|c s IH]; [reflexivity|].
  destruct (is_space c) eqn:Hc.
  - simpl. rewrite Hc. destruct (rstrip s) eqn:Hr.
    + simpl. now rewrite <- IH.
    + rewrite <- IH. simpl. now rewrite Hc.
  - rewrite (rstrip_cons c s Hc). simpl. rewrite Hc.
    destruct (starts_word s) eqn:Hs.
    + rewrite <- (sub_ws_flag (rstrip s) true (starts_word_rstrip s Hs)), IH.
      destruct (str_split s) as [|w ws] eqn:Hw.
      * now apply str_split_starts_word in Hs.
      * now rewrite concat_cons_word.
    + destruct (str_split s) as [|w ws] eqn:Hw.
      * apply str_split_nil in Hw. apply NormaliserFacts.rstrip_empty in Hw.
        now rewrite Hw.
      * destruct s as [|d s']; [discriminate Hw|].
        simpl in Hs. apply negb_false_iff in Hs.
        assert (Hne : rstrip (String d s') <> EmptyString).
        { intros E. apply NormaliserFacts.rstrip_empty in E.
          apply str_split_nil in E. congruence. }
        assert (Hr : rstrip (String d s') = String d (rstrip s')).
        { simpl in *. rewrite Hs in *. destruct (rstrip s'); [contradiction|reflexivity]. }
        rewrite Hr in IH. rewrite Hr. simpl in IH. rewrite Hs in IH.
        simpl. rewrite Hs. rewrite IH. reflexivity.
Qed.

Lemma normal_form_words s :
  collapse_spaces (strip s) = String.concat " " (str_split s).
Proof.
  unfold collapse_spaces, strip. rewrite <- (str_split_lstrip s), <- sub_ws_rstrip_words.
  destruct (lstrip_head s) as [->|(c & t & E & Hc)]; [reflexivity|].
  rewrite E. symmetry. apply sub_ws_flag, starts_word_rstrip. simpl. now rewrite Hc.
Qed.

Lemma title_from_app_space w r b :
  title_from b (w ++ String " " r) = title_from b w ++ String " " (title_from false r).
Proof.
  revert b. induction w as [|c w IH]; intros b; simpl; [now destruct b|].
  now rewrite IH.
Qed.

Lemma title_concat ws :
  title (String.concat " " ws) = String.concat " " (List.map title ws).
Proof.
  unfold title. induction ws as [|w ws IH]; [reflexivity|].
  destruct ws as [|w' ws]; [reflexivity|].
  change (String.concat " " (w :: w' :: ws))
    with (w ++ String " " (String.concat " " (w' :: ws))).
  rewrite title_from_app_space, IH. reflexivity.
Qed.

Lemma str_split_words s :
  Forall (fun w => w <> EmptyString /\ no_space w = true) (str_split s).
Proof.
  induction s as [|c s IH]; [constructor|]. simpl.
  destruct (is_space c) eqn:Hc; [exact IH|].
  destruct (starts_word s).
  - destruct (str_split s) as [|w ws].
    + constructor; [|constructor]. split; [discriminate|]. simpl. now rewrite Hc.
    + inversion IH as [|? ? [_ Hw] Hws]; subst. constructor; [|exact Hws].
      split; [discriminate|]. simpl. now rewrite Hc, Hw.
  - constructor; [|exact IH]. split; [discriminate|]. simpl. now rewrite Hc.
Qed.

End WordFacts.

(** X14: the normalised text is the words of the input, each title-cased,
    joined by single spaces; a word is a maximal run of characters that
    are no whitespace. *)
Theorem standardize_joins_title_cased_words :
  forall s : string,
    Forall (fun w => w <> EmptyString /\ no_space w = true) (str_split s)
    /\ standardize_name (Some s)
       = Some (String.concat " " (List.map PyStr.title (str_split s)))
    /\ standardize_city (Some s)
       = Some (String.concat " " (List.map PyStr.title (str_split s)))
    /\ standardize_product (Some s)
       = Some (String.concat " " (List.map PyStr.title (str_split s))).
Proof.
  intros s. split; [apply WordFacts.str_split_words|].
  assert (E : PyStr.title (PyStr.collapse_spaces (PyStr.strip s))
              = String.concat " " (List.map PyStr.title (str_split s))).
  { rewrite WordFacts.normal_form_words. apply WordFacts.title_concat. }
  unfold standardize_name, standardize_city, standardize_product.
  rewrite E. repeat split.
Qed.

Example str_split_john : str_split "  john   smith " = ["john"; "smith"].
Proof. reflexivity. Qed.

(** * The further properties on the sample rows *)




(** X9: the input file of the machine that has it is still there after the
    run. *)
Lemma sample_main_keeps_the_input_file :
  files (snd (main Sample.str_to_float Sample.str_to_datetime (list RawRow)
                   Sample.read_csv Sample.columns Sample.to_csv
                   Sample.project_root Sample.world_with_input))
    !! ["srv"; "sales"; "data"; "raw_sales_data.csv"]
  = Some "scenarios".
Proof.
  rewrite (main_touches_only_the_output_file
             Sample.str_to_float Sample.str_to_datetime (list RawRow)
             Sample.read_csv Sample.columns Sample.to_csv
             Sample.project_root Sample.world_with_input
             ["srv"; "sales"; "data"; "raw_sales_data.csv"]).
  - reflexivity.
  - discriminate.
Defined.

(** X10 on the machine on which nothing exists. *)
Lemma sample_main_makes_output_directory :
  ["srv"; "sales"; "cleaned"]
  ∈ dirs (snd (main Sample.str_to_float Sample.str_to_datetime (list RawRow)
                    Sample.read_csv Sample.columns Sample.to_csv
                    Sample.project_root Sample.empty_world)).
Proof.
  apply (main_makes_output_directory_before_failing
           Sample.str_to_float Sample.str_to_datetime (list RawRow)
           Sample.read_csv Sample.columns Sample.to_csv
           Sample.project_root Sample.empty_world).
  - reflexivity.
  - repeat constructor.
  - reflexivity.
  - compute_done.
Defined.

(** X11 on the machine whose input file the reader rejects. *)
Lemma sample_main_raises_on_unreadable_input :
  Sample.read_csv "garbled" = Raise ParserError
  /\ fst (main Sample.str_to_float Sample.str_to_datetime (list RawRow)
               Sample.read_csv Sample.columns Sample.to_csv
               Sample.project_root world_with_unreadable_input)
     = Raise ParserError.
Proof.
  split; [reflexivity|].
  destruct (main_raises_on_unreadable_input
              Sample.str_to_float Sample.str_to_datetime (list RawRow)
              Sample.read_csv Sample.columns Sample.to_csv
              Sample.project_root world_with_unreadable_input "garbled")
    as [H _].
  - reflexivity.
  - repeat constructor.
  - reflexivity.
  - now rewrite (H ParserError eq_refl).
Defined.
